(** * geojson2png: a shallow embedding of [src/geojson2png/geojson2png.py]

    The script turns Meshiphi GeoJSON meshes into PNG summary images.  Its own
    logic is: a hex-string to RGBA conversion, the construction of the
    100-entry AMSR2 colour table, the filtering of the input paths, the
    sequence of geopandas / matplotlib calls that renders one file, and the
    command-line surface.  Each of these is embedded below, in the order of
    the source file.

    Conventions.
    - Python [float] and numpy [float64] are IEEE binary64: Rocq's primitive
      floats.  [a / b] on two small [int]s is the correctly rounded quotient,
      which is [PrimFloat.div] on the converted operands.
    - A Python [str] is a [string], one [ascii] per character: the text
      the script handles (hex digits, option strings, paths) is taken to be
      ASCII.
    - A raised exception is [None] in pure code and [inr e] in code that
      also threads the process state. *)

From Stdlib Require Import ZArith List String Ascii Bool Lia.
From Stdlib Require Import Floats Uint63.
Import ListNotations.

Local Open Scope string_scope.
Local Open Scope list_scope.

(** ** Module constants (lines 17-19) *)

Definition _XSCALE : Z := 40.
Definition _YSCALE : Z := 30.
Definition _DPI : Z := 180.

(** ** Python builtins used by [hex_to_rgba] *)

Module Py.

(** [s.lstrip('#')]: every leading occurrence of the character is dropped. *)
Fixpoint lstrip (ch : ascii) (s : string) : string :=
  match s with
  | String c r => if Ascii.eqb c ch then lstrip ch r else s
  | EmptyString => EmptyString
  end.

(** [s[i:j]] for [0 <= i <= j]: the slice is clamped to the string. *)
Definition slice (i j : nat) (s : string) : string :=
  substring i (j - i) s.

(** Value of a character as a digit in base 16, if it is one. *)
Definition digit16 (c : ascii) : option Z :=
  let n := Z.of_nat (nat_of_ascii c) in
  if ((48 <=? n) && (n <=? 57))%Z then Some (n - 48)%Z
  else if ((97 <=? n) && (n <=? 102))%Z then Some (n - 87)%Z
  else if ((65 <=? n) && (n <=? 70))%Z then Some (n - 55)%Z
  else None.

(** The characters [int] skips around a literal (C's [Py_ISSPACE]). *)
Definition isspace (c : ascii) : bool :=
  let n := nat_of_ascii c in
  ((9 <=? n)%nat && (n <=? 13)%nat) || (n =? 32)%nat.

Fixpoint skip_space (s : string) : string :=
  match s with
  | String c r => if isspace c then skip_space r else s
  | EmptyString => EmptyString
  end.

Inductive prev_char := PNone | PDigit | PUnderscore.

(** The digit loop of [int(s, 16)]: hex digits separated by single
    underscores.  Returns the value read, the number of digits, the kind
    of the last character consumed and the unread rest; [None] on a
    doubled underscore. *)
Fixpoint scan_digits (s : string) (acc : Z) (digits : nat) (prev : prev_char)
  : option (Z * nat * prev_char * string) :=
  match s with
  | EmptyString => Some (acc, digits, prev, s)
  | String c r =>
      match digit16 c with
      | Some v => scan_digits r (16 * acc + v)%Z (S digits) PDigit
      | None =>
          if Ascii.eqb c "_" then
            match prev with
            | PUnderscore => None
            | _ => scan_digits r acc digits PUnderscore
            end
          else Some (acc, digits, prev, s)
      end
  end.

(** [int(s, 16)]; [None] is [ValueError].  Optional surrounding white
    space, one optional sign, an optional [0x] prefix (which may be followed
    by one underscore), then at least one digit. *)
Definition int16 (s : string) : option Z :=
  let s1 := skip_space s in
  let '(neg, s2) :=
    match s1 with
    | String "+" r => (false, r)
    | String "-" r => (true, r)
    | _ => (false, s1)
    end in
  let s3 :=
    match s2 with
    | String "0" (String x r) =>
        if Ascii.eqb x "x" || Ascii.eqb x "X" then
          match r with
          | String "_" r' => r'
          | _ => r
          end
        else s2
    | _ => s2
    end in
  match s3 with
  | String "_" _ => None
  | _ =>
      match scan_digits s3 0%Z 0%nat PNone with
      | Some (v, digits, prev, rest) =>
          match prev, digits, skip_space rest with
          | PUnderscore, _, _ => None
          | _, O, _ => None
          | _, _, EmptyString => Some (if neg then (- v)%Z else v)
          | _, _, _ => None
          end
      | None => None
      end
  end.

(** An [int] of magnitude below 2^53 as a [float] (exact). *)
Definition float_of_int (z : Z) : float :=
  if (z <? 0)%Z then PrimFloat.opp (PrimFloat.of_uint63 (Uint63.of_Z (- z)))
  else PrimFloat.of_uint63 (Uint63.of_Z z).

(** [a / b] on two [int]s (true division). *)
Definition truediv (a b : Z) : float :=
  PrimFloat.div (float_of_int a) (float_of_int b).

End Py.

(** ** [hex_to_rgba] (lines 23-29) *)

(** A row of the colour table, and the tuple [hex_to_rgba] returns. *)
Definition rgba : Type := float * float * float * float.

Definition red (c : rgba) : float := fst (fst (fst c)).
Definition green (c : rgba) : float := snd (fst (fst c)).
Definition blue (c : rgba) : float := snd (fst c).
Definition alpha (c : rgba) : float := snd c.

(** One element of the list comprehension:
    [int(hex_color_string[i:i+2], 16)/255]. *)
Definition channel (s : string) (i : nat) : option float :=
  match Py.int16 (Py.slice i (i + 2) s) with
  | Some n => Some (Py.truediv n 255)
  | None => None
  end.

Definition hex_to_rgba (hex_color_string : string) : option rgba :=
  let hex_color_string := Py.lstrip "#" hex_color_string in
  match channel hex_color_string 0 with
  | None => None
  | Some r =>
      match channel hex_color_string 2 with
      | None => None
      | Some g =>
          match channel hex_color_string 4 with
          | None => None
          | Some b =>
              match channel hex_color_string 6 with
              | None => None
              | Some a => Some (r, g, b, a)
              end
          end
      end
  end.

(** ** [create_amsr2_colormap] (lines 49-71) *)

Module Np.

(** [np.ones((rows, 4))]. *)
Definition ones (rows : nat) : list rgba :=
  repeat (1%float, 1%float, 1%float, 1%float) rows.

Fixpoint set_rows_from (i start : nat) (stop : option nat) (v : rgba)
    (arr : list rgba) : list rgba :=
  match arr with
  | [] => []
  | x :: r =>
      let inside :=
        (start <=? i)%nat &&
        match stop with Some e => (i <? e)%nat | None => true end in
      (if inside then v else x) :: set_rows_from (S i) start stop v r
  end.

(** [arr[start:stop] = v] with a 4-tuple [v]: the tuple is broadcast over
    the rows of the slice, and the slice is clamped to the array.  A
    missing [stop] ([arr[start:]]) is [None]. *)
Definition setslice (start : nat) (stop : option nat) (v : rgba)
    (arr : list rgba) : list rgba :=
  set_rows_from 0 start stop v arr.

End Np.

(** [matplotlib.colors.ListedColormap]: the table, its size [N], and the
    colour drawn for masked or invalid values. *)
Record ListedColormap : Type := mkListedColormap {
  colors : list rgba;
  cmap_N : nat;
  bad : rgba
}.

Module Mpl.

(** [to_rgba('black')]. *)
Definition black : rgba := (0%float, 0%float, 0%float, 1%float).

(** A fresh colour map has a transparent bad colour. *)
Definition Listed (table : list rgba) : ListedColormap :=
  {| colors := table; cmap_N := List.length table;
     bad := (0%float, 0%float, 0%float, 0%float) |}.

Definition set_bad (color : rgba) (cm : ListedColormap) : ListedColormap :=
  {| colors := colors cm; cmap_N := cmap_N cm; bad := color |}.

End Mpl.

(** [sic_colours[a:b] = hex_to_rgba(h)]: the right-hand side is evaluated
    first, and its exception, if any, leaves the function. *)
Definition assign (start : nat) (stop : option nat) (h : string)
    (arr : option (list rgba)) : option (list rgba) :=
  match arr with
  | None => None
  | Some a =>
      match hex_to_rgba h with
      | None => None
      | Some v => Some (Np.setslice start stop v a)
      end
  end.

Definition create_amsr2_colormap : option ListedColormap :=
  let sic_colours := Some (Np.ones 100) in
  let sic_colours := assign 0 (Some 10%nat) "#00008b00" sic_colours in
  let sic_colours := assign 10 (Some 20%nat) "#1e90ffff" sic_colours in
  let sic_colours := assign 20 (Some 30%nat) "#1efaa0ff" sic_colours in
  let sic_colours := assign 30 (Some 40%nat) "#228b22ff" sic_colours in
  let sic_colours := assign 40 (Some 50%nat) "#00fa00ff" sic_colours in
  let sic_colours := assign 50 (Some 60%nat) "#7dfa00ff" sic_colours in
  let sic_colours := assign 60 (Some 70%nat) "#adff2fff" sic_colours in
  let sic_colours := assign 70 (Some 80%nat) "#fafa00ff" sic_colours in
  let sic_colours := assign 80 (Some 85%nat) "#fa7d00ff" sic_colours in
  let sic_colours := assign 85 (Some 90%nat) "#fa0000ff" sic_colours in
  let sic_colours := assign 90 (Some 95%nat) "#ba55d3ff" sic_colours in
  let sic_colours := assign 95 (Some 99%nat) "#9400d3ff" sic_colours in
  let sic_colours := assign 99 None "#78005aff" sic_colours in
  match sic_colours with
  | None => None
  | Some table =>
      let sic_cmap := Mpl.Listed table in
      Some (Mpl.set_bad Mpl.black sic_cmap)
  end.

(** ** The process state and the library calls

    Everything the script does besides building the colour table goes through
    [print], [os.path], geopandas and matplotlib.  The objects those calls
    exchange are kept symbolic: a data frame is the expression that produced
    it, a figure is its size and the layers plotted on its axes, and a saved
    file is the figure written and the options of the call that wrote it. *)

(** The value of an argparse [store] option declared without [type=]: the
    [int] default, or the [str] taken from the command line. *)
Inductive argval : Type :=
  | AInt (n : Z)
  | AStr (s : string).

(** A [GeoDataFrame]: read from a file, or reprojected by [to_crs]. *)
Inductive frame : Type :=
  | FileFrame (path : string)
  | Reprojected (df : frame) (epsg : Z).

(** The [cmap=] argument: a registered colour map name or a colour map. *)
Inductive cmap_arg : Type :=
  | CmapName (name : string)
  | CmapObject (cm : ListedColormap).

(** Keyword arguments of [GeoDataFrame.plot] (besides [ax]); [None] is an
    argument left out. *)
Record plot_kwargs : Type := mkKwargs {
  column : string;
  edgecolor : option string;
  linewidth : option float;
  cmap : cmap_arg
}.

Record layer : Type := mkLayer {
  layer_data : frame;
  layer_kwargs : plot_kwargs
}.

(** [figsize] is [None] for a figure of the default size. *)
Record figure : Type := mkFigure {
  figsize : option (argval * argval);
  layers : list layer
}.

Record png : Type := mkPng {
  png_path : string;
  png_dpi : argval;
  png_figure : figure
}.

(** Lines printed so far, the figures pyplot holds (oldest first, the last
    one is the current figure; the script never closes one), and the files
    [savefig] has written, in order. *)
Record world : Type := mkWorld {
  stdout : list string;
  figures : list figure;
  saved : list png
}.

(** The calls into geopandas and matplotlib, with their arguments.  An
    [ax] is the index of its figure in [figures]. *)
Inductive call : Type :=
  | CReadFile (path : string)
  | CTotalBounds (df : frame)
  | CSubplots (size : argval * argval)
  | CToCrs (df : frame) (epsg : Z)
  | CPlot (df : frame) (kw : plot_kwargs) (ax : nat)
  | CSavefig (fname : string) (dpi : argval).

Inductive exn : Type :=
  | ValueError
  | LibraryError (c : call)
  | SystemExit (code : Z)
  | OutsideFragment.

(** State and exceptions: a computation maps the state to a result or an
    exception, and the state reached. *)
Definition M (A : Type) : Type := world -> (A + exn) * world.

Definition ret {A : Type} (a : A) : M A := fun w => (inl a, w).

Definition raise {A : Type} (e : exn) : M A := fun w => (inr e, w).

Definition bind {A B : Type} (m : M A) (k : A -> M B) : M B :=
  fun w =>
    match m w with
    | (inl a, w') => k a w'
    | (inr e, w') => (inr e, w')
    end.

Declare Scope py_scope.
Delimit Scope py_scope with py.
Notation "x <- m ;; k" := (bind m (fun x => k))
  (at level 61, m at next level, right associativity) : py_scope.
Notation "m ;; k" := (bind m (fun _ => k))
  (at level 61, right associativity) : py_scope.
Local Open Scope py_scope.

Definition outcome {A : Type} (m : M A) (w : world) : A + exn := fst (m w).
Definition after {A : Type} (m : M A) (w : world) : world := snd (m w).

(** [for x in l: body(x)]. *)
Fixpoint for_each {A : Type} (l : list A) (body : A -> M unit) : M unit :=
  match l with
  | [] => ret tt
  | x :: r => body x ;; for_each r body
  end.

(** [print(...)] of one line. *)
Definition print (line : string) : M unit :=
  fun w => (inl tt,
            {| stdout := stdout w ++ [line];
               figures := figures w; saved := saved w |}).

Definition of_option {A : Type} (o : option A) : M A :=
  match o with
  | Some a => ret a
  | None => raise ValueError
  end.

(** Adds a layer to the figure of index [ax]. *)
Fixpoint add_layer (ax : nat) (l : layer) (figs : list figure) : list figure :=
  match figs, ax with
  | [], _ => []
  | f :: r, O => {| figsize := figsize f; layers := layers f ++ [l] |} :: r
  | f :: r, S n => f :: add_layer n l r
  end.

Definition default_figure : figure := {| figsize := None; layers := [] |}.

Section Library.

(** Whether a library call raises is decided outside the script (by the
    content of the file, the columns it has, the values passed as sizes):
    it is a parameter. *)
Variable raises : call -> bool.

(** A library call: it raises, or it returns [result] and updates the
    state with [effect]. *)
Definition lib {A : Type} (c : call) (result : world -> A)
    (effect : world -> world) : M A :=
  fun w => if raises c then (inr (LibraryError c), w)
           else (inl (result w), effect w).

(** [gpd.read_file(path)]. *)
Definition read_file (path : string) : M frame :=
  lib (CReadFile path) (fun _ => FileFrame path) (fun w => w).

(** [df.geometry.total_bounds]. *)
Definition total_bounds (df : frame) : M unit :=
  lib (CTotalBounds df) (fun _ => tt) (fun w => w).

(** [plt.subplots(figsize=size)]: a new figure, which becomes the
    current one; the result is its axes. *)
Definition subplots (size : argval * argval) : M nat :=
  lib (CSubplots size) (fun w => List.length (figures w))
    (fun w => {| stdout := stdout w;
                 figures := figures w ++
                            [{| figsize := Some size; layers := [] |}];
                 saved := saved w |}).

(** [df.to_crs(epsg=epsg)]. *)
Definition to_crs (df : frame) (epsg : Z) : M frame :=
  lib (CToCrs df epsg) (fun _ => Reprojected df epsg) (fun w => w).

(** [df.plot(ax=ax, **kw)]. *)
Definition plot (df : frame) (kw : plot_kwargs) (ax : nat) : M unit :=
  lib (CPlot df kw ax) (fun _ => tt)
    (fun w => {| stdout := stdout w;
                 figures := add_layer ax (mkLayer df kw) (figures w);
                 saved := saved w |}).

(** [plt.savefig(fname, dpi=dpi)]: writes the current figure (pyplot
    makes a default one when it holds none). *)
Definition savefig (fname : string) (dpi : argval) : M unit :=
  lib (CSavefig fname dpi) (fun _ => tt)
    (fun w =>
       let figs := match figures w with
                   | [] => [default_figure]
                   | _ => figures w
                   end in
       {| stdout := stdout w;
          figures := figs;
          saved := saved w ++
                   [{| png_path := fname; png_dpi := dpi;
                       png_figure := last figs default_figure |}] |}).

(** ** [convert_to_png] (lines 74-94)

    [criteria] reaches the function as a [str] (the argparse default or a
    command-line word), on which [str(criteria)] is the identity. *)
Definition str (s : string) : string := s.

(** Lines 79-83: the base colour map, and the extra layer that goes with
    the [fuel] criteria.  The result is the final value of the local
    variable [default_cmap]. *)
Definition base_cmap (df : frame) (ax : nat) (criteria : string)
  : M string :=
  let default_cmap := "coolwarm" in
  if String.eqb (str criteria) "fuel" then
    d <- to_crs df 4326 ;;
    plot d {| column := "inaccessible"; edgecolor := None;
              linewidth := None; cmap := CmapName "RdYlBu" |} ax ;;
    let default_cmap := "Wistia" in
    ret default_cmap
  else ret default_cmap.

Definition convert_to_png (geojson_filepath : string)
    (xscale yscale dpi : argval) (amsr_palette : bool) (criteria : string)
  : M unit :=
  df <- read_file geojson_filepath ;;
  bounds <- total_bounds df ;;
  ax <- subplots (xscale, yscale) ;;
  default_cmap <- base_cmap df ax criteria ;;
  (if amsr_palette then
     d <- to_crs df 4326 ;;
     cm <- of_option create_amsr2_colormap ;;
     plot d {| column := str criteria; edgecolor := Some "grey";
               linewidth := Some 0.5%float; cmap := CmapObject cm |} ax
   else
     d <- to_crs df 4326 ;;
     plot d {| column := str criteria; edgecolor := Some "grey";
               linewidth := Some 0.5%float;
               cmap := CmapName default_cmap |} ax) ;;
  d <- to_crs df 4326 ;;
  plot d {| column := "land"; edgecolor := Some "brown";
            linewidth := Some 0.5%float; cmap := CmapName "copper" |} ax ;;
  savefig (geojson_filepath ++ ".png") dpi.

End Library.

(** ** [check_input_filenames] (lines 33-47) *)

Section FileSystem.

(** [os.path.isfile] and [os.path.abspath], as the operating system
    answers them while the script runs. *)
Variable isfile : string -> bool.
Variable abspath : string -> string.

Definition ignoring (a_filename : string) : string :=
  "Filename " ++ a_filename ++ " is not a file (or doesn't exist): Ignoring".

Definition including (a_filename : string) : string :=
  "Including filename: " ++ a_filename.

(** The loop, with the list built so far. *)
Fixpoint check_loop (input_filenames : list string)
    (list_of_filenames_that_actually_exist : list string)
  : M (list string) :=
  match input_filenames with
  | [] => ret list_of_filenames_that_actually_exist
  | a_filename :: rest =>
      if negb (isfile a_filename) then
        print (ignoring a_filename) ;;
        check_loop rest list_of_filenames_that_actually_exist
      else
        let appended :=
          list_of_filenames_that_actually_exist ++ [abspath a_filename] in
        print (including a_filename) ;;
        check_loop rest appended
  end.

Definition check_input_filenames (input_filenames : list string)
  : M (list string) :=
  check_loop input_filenames [].

End FileSystem.

(** ** The command line (lines 102-109)

    The parser is the five options and the positional that [main] declares.
    [parse_args] follows argparse on the command lines whose words are either
    one of the declared option strings, written out in full and on its own,
    or a word that does not start with a dash (a lone [-] included).  The
    other spellings argparse understands ([--xscale=50], [-x50], [-px],
    abbreviated long options, [--], [-h], negative numbers) are reported as
    [Unmodelled]. *)

Record Namespace : Type := mkNamespace {
  xscale : argval;
  yscale : argval;
  dpi : argval;
  palette : bool;
  criteria : string;
  files : list string
}.

Inductive action : Type := store | store_true.

Inductive dest : Type := d_xscale | d_yscale | d_dpi | d_palette | d_criteria.

Record optional : Type := mkOptional {
  option_strings : list string;
  opt_action : action;
  opt_dest : dest
}.

(** The [add_argument] calls of the optionals, in order. *)
Definition optionals : list optional :=
  [ {| option_strings := ["-x"; "--xscale"]; opt_action := store;
       opt_dest := d_xscale |};
    {| option_strings := ["-y"; "--yscale"]; opt_action := store;
       opt_dest := d_yscale |};
    {| option_strings := ["-d"; "--dpi"]; opt_action := store;
       opt_dest := d_dpi |};
    {| option_strings := ["-p"; "--palette_amsr"]; opt_action := store_true;
       opt_dest := d_palette |};
    {| option_strings := ["-c"; "--criteria"]; opt_action := store;
       opt_dest := d_criteria |} ].

(** The [default=] of each optional; [files] has none and is required
    ([nargs='+']). *)
Definition defaults : Namespace :=
  {| xscale := AInt _XSCALE; yscale := AInt _YSCALE; dpi := AInt _DPI;
     palette := false; criteria := "SIC"; files := [] |}.

(** [setattr(namespace, dest, value)] for a [store] action. *)
Definition store_value (d : dest) (value : string) (ns : Namespace)
  : Namespace :=
  match d with
  | d_xscale =>
      {| xscale := AStr value; yscale := yscale ns; dpi := dpi ns;
         palette := palette ns; criteria := criteria ns; files := files ns |}
  | d_yscale =>
      {| xscale := xscale ns; yscale := AStr value; dpi := dpi ns;
         palette := palette ns; criteria := criteria ns; files := files ns |}
  | d_dpi =>
      {| xscale := xscale ns; yscale := yscale ns; dpi := AStr value;
         palette := palette ns; criteria := criteria ns; files := files ns |}
  | d_criteria =>
      {| xscale := xscale ns; yscale := yscale ns; dpi := dpi ns;
         palette := palette ns; criteria := value; files := files ns |}
  | d_palette => ns
  end.

(** The same for a [store_true] action. *)
Definition store_const_true (d : dest) (ns : Namespace) : Namespace :=
  match d with
  | d_palette =>
      {| xscale := xscale ns; yscale := yscale ns; dpi := dpi ns;
         palette := true; criteria := criteria ns; files := files ns |}
  | _ => ns
  end.

Definition set_files (values : list string) (ns : Namespace) : Namespace :=
  {| xscale := xscale ns; yscale := yscale ns; dpi := dpi ns;
     palette := palette ns; criteria := criteria ns; files := values |}.

Definition mentions (word : string) (o : optional) : bool :=
  existsb (String.eqb word) (option_strings o).

Inductive word_class : Type :=
  | WOption (o : optional)
  | WArgument
  | WOther.

Definition classify (word : string) : word_class :=
  match find (mentions word) optionals with
  | Some o => WOption o
  | None =>
      match word with
      | String "-" (String _ _) => WOther
      | _ => WArgument
      end
  end.

Inductive usage_error : Type :=
  | ExpectedOneArgument (o : optional)
  | FilesRequired
  | UnrecognizedArguments (extras : list string).

Inductive parsed : Type :=
  | Parsed (args : Namespace)
  | Usage (e : usage_error)
  | Unmodelled.

(** Where the positional [files] stands: not met yet, taking the words of
    the current run of arguments, or filled by an earlier run. *)
Inductive positional_state : Type := Unseen | Collecting | Filled.

Definition close (p : positional_state) : positional_state :=
  match p with
  | Collecting => Filled
  | _ => p
  end.

(** One pass over the words.  An option with [store] takes the next word,
    which must be an argument; [files] takes the first run of consecutive
    arguments, and arguments met after that run are left over. *)
Fixpoint consume (words : list string) (ns : Namespace)
    (pos : positional_state) (extras : list string) : parsed :=
  match words with
  | [] =>
      match pos, extras with
      | Unseen, _ => Usage FilesRequired
      | _, [] => Parsed ns
      | _, _ :: _ => Usage (UnrecognizedArguments extras)
      end
  | word :: rest =>
      match classify word with
      | WOption o =>
          match opt_action o with
          | store =>
              match rest with
              | value :: rest' =>
                  match classify value with
                  | WArgument =>
                      consume rest' (store_value (opt_dest o) value ns)
                        (close pos) extras
                  | _ => Usage (ExpectedOneArgument o)
                  end
              | [] => Usage (ExpectedOneArgument o)
              end
          | store_true =>
              consume rest (store_const_true (opt_dest o) ns) (close pos)
                extras
          end
      | WArgument =>
          match pos with
          | Unseen => consume rest (set_files [word] ns) Collecting extras
          | Collecting =>
              consume rest (set_files (files ns ++ [word]) ns) Collecting
                extras
          | Filled => consume rest ns Filled (extras ++ [word])
          end
      | WOther => Unmodelled
      end
  end.

Definition in_fragment (word : string) : bool :=
  match classify word with
  | WOther => false
  | _ => true
  end.

(** [parser.parse_args()] on [sys.argv[1:]]. *)
Definition parse_args (argv : list string) : parsed :=
  if forallb in_fragment argv then consume argv defaults Unseen []
  else Unmodelled.

(** ** [main] (lines 97-117) *)

Section Main.

Variable raises : call -> bool.
Variable isfile : string -> bool.
Variable abspath : string -> string.

(** Lines 114-117, on the parsed arguments. *)
Definition run (args : Namespace) : M unit :=
  checked_files <- check_input_filenames isfile abspath (files args) ;;
  for_each checked_files
    (fun geojson_filepath =>
       convert_to_png raises geojson_filepath (xscale args) (yscale args)
         (dpi args) (palette args) (criteria args)).

(** A usage error makes argparse leave with status 2. *)
Definition main (argv : list string) : M unit :=
  match parse_args argv with
  | Parsed args => run args
  | Usage _ => raise (SystemExit 2)
  | Unmodelled => raise OutsideFragment
  end.

End Main.

(** * The vocabulary of the properties *)

(** A float in the closed interval from 0 to 1. *)
Definition unit_interval (x : float) : Prop :=
  PrimFloat.leb 0 x = true /\ PrimFloat.leb x 1 = true.

Definition unit_intervalb (x : float) : bool :=
  PrimFloat.leb 0 x && PrimFloat.leb x 1.

(** The value of a pair of hexadecimal digits. *)
Definition pair_value (hi lo : Z) : Z := (16 * hi + lo)%Z.

(** The 256 characters. *)
Definition all_ascii : list ascii := map ascii_of_nat (seq 0 256).

Definition option_Z_eqb (a b : option Z) : bool :=
  match a, b with
  | Some x, Some y => Z.eqb x y
  | None, None => true
  | _, _ => false
  end.

(** [int] on two hexadecimal digits, checked on every pair of characters. *)
Definition int16_pair_ok (c1 c2 : ascii) : bool :=
  match Py.digit16 c1, Py.digit16 c2 with
  | Some v1, Some v2 =>
      option_Z_eqb (Py.int16 (String c1 (String c2 EmptyString)))
        (Some (pair_value v1 v2))
  | _, _ => true
  end.

(** The eight-digit string [c1 c2 ... c8]. *)
Definition hex8 (c1 c2 c3 c4 c5 c6 c7 c8 : ascii) : string :=
  String c1 (String c2 (String c3 (String c4
    (String c5 (String c6 (String c7 (String c8 EmptyString))))))).

(** The table the function builds, evaluated. *)
Definition amsr2_table : list rgba :=
  Eval vm_compute in
    match create_amsr2_colormap with
    | Some cm => colors cm
    | None => []
    end.

(** Entries [first] to [last] of the table are the RGBA of [hex]. *)
Definition entries (cm : ListedColormap) (first last : nat) (hex : string)
  : Prop :=
  exists c, hex_to_rgba hex = Some c /\
            forall i, first <= i <= last -> nth_error (colors cm) i = Some c.

(** The three kinds of layer [convert_to_png] plots, with the keyword
    arguments of lines 82, 86, 88 and 90. *)
Definition reprojected (geojson_filepath : string) : frame :=
  Reprojected (FileFrame geojson_filepath) 4326.

Definition inaccessible_layer (geojson_filepath : string) : layer :=
  {| layer_data := reprojected geojson_filepath;
     layer_kwargs := {| column := "inaccessible"; edgecolor := None;
                        linewidth := None; cmap := CmapName "RdYlBu" |} |}.

Definition main_layer (geojson_filepath : string) (criteria : string)
    (c : cmap_arg) : layer :=
  {| layer_data := reprojected geojson_filepath;
     layer_kwargs := {| column := criteria; edgecolor := Some "grey";
                        linewidth := Some 0.5%float; cmap := c |} |}.

Definition land_layer (geojson_filepath : string) : layer :=
  {| layer_data := reprojected geojson_filepath;
     layer_kwargs := {| column := "land"; edgecolor := Some "brown";
                        linewidth := Some 0.5%float;
                        cmap := CmapName "copper" |} |}.

(** The layers of a complete rendering, in plotting order. *)
Definition plotted_layers (geojson_filepath : string) (amsr_palette : bool)
    (criteria : string) (cm : ListedColormap) : list layer :=
  (if String.eqb criteria "fuel"
   then [inaccessible_layer geojson_filepath] else []) ++
  [main_layer geojson_filepath criteria
     (if amsr_palette then CmapObject cm
      else CmapName (if String.eqb criteria "fuel"
                     then "Wistia" else "coolwarm"));
   land_layer geojson_filepath].

(** The state a complete rendering leaves: one more figure and one more
    file. *)
Definition rendered (geojson_filepath : string) (xscale yscale dpi : argval)
    (ls : list layer) (w : world) : world :=
  let fig := {| figsize := Some (xscale, yscale); layers := ls |} in
  {| stdout := stdout w;
     figures := figures w ++ [fig];
     saved := saved w ++
              [{| png_path := geojson_filepath ++ ".png";
                  png_dpi := dpi; png_figure := fig |}] |}.

(** Every library call returns. *)
Definition library_returns (raises : call -> bool) : Prop :=
  forall c, raises c = false.

(** The line [check_input_filenames] prints for a path. *)
Definition notice (isfile : string -> bool) (a_filename : string) : string :=
  if isfile a_filename then including a_filename else ignoring a_filename.

Definition printed (lines : list string) (w : world) : world :=
  {| stdout := stdout w ++ lines; figures := figures w; saved := saved w |}.

(** The loop of [main] over the paths [ps]. *)
Definition render_all (raises : call -> bool) (xs ys resolution : argval)
    (amsr_palette : bool) (column_name : string) (ps : list string)
  : M unit :=
  for_each ps
    (fun geojson_filepath =>
       convert_to_png raises geojson_filepath xs ys resolution amsr_palette
         column_name).

(** The option strings that store into a destination. *)
Definition strings_of (d : dest) : list string :=
  match d with
  | d_xscale => ["-x"; "--xscale"]
  | d_yscale => ["-y"; "--yscale"]
  | d_dpi => ["-d"; "--dpi"]
  | d_palette => ["-p"; "--palette_amsr"]
  | d_criteria => ["-c"; "--criteria"]
  end.

(** No word of the command line is an option string of [d]. *)
Definition flag_absent (d : dest) (argv : list string) : Prop :=
  forall word, In word argv -> ~ In word (strings_of d).

(** A word that is neither an option string nor dash-led. *)
Definition plain (word : string) : Prop := classify word = WArgument.

(** ** Sample environments for the examples

    A library in which every call returns, an empty process state, a
    directory [/cwd] in which every name but [missing.json] is a file, and
    [os.path.abspath] on paths that need no normalisation. *)
Definition no_raise (c : call) : bool := false.

Definition empty_world : world :=
  {| stdout := []; figures := []; saved := [] |}.

Definition sample_isfile (p : string) : bool :=
  negb (String.eqb p "missing.json").

Definition sample_abspath (p : string) : string :=
  match p with
  | String "/" _ => p
  | _ => "/cwd/" ++ p
  end.

(** ** Vocabulary of the further properties *)

(** A float between -1 and 1. *)
Definition signed_unit_interval (x : float) : Prop :=
  PrimFloat.leb (-1) x = true /\ PrimFloat.leb x 1 = true.

Definition signed_unit_intervalb (x : float) : bool :=
  PrimFloat.leb (-1) x && PrimFloat.leb x 1.

(** What [int] returns on a string, if anything, has magnitude at most
    255. *)
Definition int16_small (s : string) : bool :=
  match Py.int16 s with
  | Some n => ((-255 <=? n) && (n <=? 255))%Z
  | None => true
  end.

(** Two bytes have the same quotient by 255 exactly when they are equal. *)
Definition byte_channels_differ (n m : nat) : bool :=
  Bool.eqb
    (PrimFloat.eqb (Py.truediv (Z.of_nat n) 255) (Py.truediv (Z.of_nat m) 255))
    (Nat.eqb n m).

(** [n] characters [#]. *)
Fixpoint hashes (n : nat) : string :=
  match n with
  | O => EmptyString
  | S k => String "#" (hashes k)
  end.

(** An option string of [d] is among the words still to read, or the field
    [proj] already holds a word of the command line [all]. *)
Definition flagged (proj : Namespace -> argval) (d : dest)
    (all words : list string) (ns : Namespace) : Prop :=
  (exists word, In word words /\ In word (strings_of d)) \/
  (exists v, In v all /\ proj ns = AStr v).

(** * Properties *)

(** ** Hexadecimal digits and channels *)

Lemma unit_intervalb_spec (x : float) :
  unit_intervalb x = true -> unit_interval x.
Proof.
  unfold unit_intervalb, unit_interval. intros H.
  apply andb_true_iff in H. exact H.
Qed.

Lemma digit16_range (c : ascii) (v : Z) :
  Py.digit16 c = Some v -> (0 <= v <= 15)%Z.
Proof.
  unfold Py.digit16. intros H.
  repeat match type of H with
         | (if ?b then _ else _) = _ => destruct b eqn:?
         end; inversion H; subst; lia.
Qed.

Lemma pair_value_range (c1 c2 : ascii) (v1 v2 : Z) :
  Py.digit16 c1 = Some v1 -> Py.digit16 c2 = Some v2 ->
  (0 <= pair_value v1 v2 <= 255)%Z.
Proof.
  intros H1 H2. apply digit16_range in H1. apply digit16_range in H2.
  unfold pair_value. lia.
Qed.

Lemma in_all_ascii (c : ascii) : In c all_ascii.
Proof.
  unfold all_ascii. apply in_map_iff. exists (nat_of_ascii c). split.
  - apply ascii_nat_embedding.
  - apply in_seq. pose proof (nat_ascii_bounded c). lia.
Qed.

Lemma option_Z_eqb_eq (a b : option Z) : option_Z_eqb a b = true -> a = b.
Proof.
  destruct a, b; simpl; intros H; try discriminate; try reflexivity.
  apply Z.eqb_eq in H. now subst.
Qed.

Lemma int16_pair_table :
  forallb (fun c1 => forallb (int16_pair_ok c1) all_ascii) all_ascii = true.
Proof. vm_compute. reflexivity. Qed.

Lemma int16_pair (c1 c2 : ascii) (v1 v2 : Z) :
  Py.digit16 c1 = Some v1 -> Py.digit16 c2 = Some v2 ->
  Py.int16 (String c1 (String c2 EmptyString)) = Some (pair_value v1 v2).
Proof.
  intros H1 H2.
  pose proof int16_pair_table as T.
  rewrite forallb_forall in T. specialize (T c1 (in_all_ascii c1)).
  rewrite forallb_forall in T. specialize (T c2 (in_all_ascii c2)).
  unfold int16_pair_ok in T. rewrite H1, H2 in T.
  now apply option_Z_eqb_eq.
Qed.

(** A byte divided by 255 stays between 0 and 1, checked on the 256 bytes. *)
Lemma byte_channel_table :
  forallb (fun k => unit_intervalb (Py.truediv (Z.of_nat k) 255)) (seq 0 256)
  = true.
Proof. vm_compute. reflexivity. Qed.

Lemma byte_channel_unit (n : Z) :
  (0 <= n <= 255)%Z -> unit_interval (Py.truediv n 255).
Proof.
  intros Hn. apply unit_intervalb_spec.
  pose proof byte_channel_table as T. rewrite forallb_forall in T.
  specialize (T (Z.to_nat n)).
  rewrite Z2Nat.id in T by lia. apply T. apply in_seq. lia.
Qed.

Lemma hex_digit_not_hash (c : ascii) (v : Z) :
  Py.digit16 c = Some v -> Ascii.eqb c "#" = false.
Proof.
  intros H. destruct (Ascii.eqb c "#") eqn:E; [|reflexivity].
  apply Ascii.eqb_eq in E. subst c. vm_compute in H. discriminate.
Qed.

Lemma hex_to_rgba_digits (c1 c2 c3 c4 c5 c6 c7 c8 : ascii)
    (v1 v2 v3 v4 v5 v6 v7 v8 : Z) (hashed : bool) :
  Py.digit16 c1 = Some v1 -> Py.digit16 c2 = Some v2 ->
  Py.digit16 c3 = Some v3 -> Py.digit16 c4 = Some v4 ->
  Py.digit16 c5 = Some v5 -> Py.digit16 c6 = Some v6 ->
  Py.digit16 c7 = Some v7 -> Py.digit16 c8 = Some v8 ->
  hex_to_rgba ((if hashed then "#" else "") ++ hex8 c1 c2 c3 c4 c5 c6 c7 c8)
  = Some (Py.truediv (pair_value v1 v2) 255,
          Py.truediv (pair_value v3 v4) 255,
          Py.truediv (pair_value v5 v6) 255,
          Py.truediv (pair_value v7 v8) 255).
Proof.
  intros H1 H2 H3 H4 H5 H6 H7 H8.
  assert (L : Py.lstrip "#"
                ((if hashed then "#" else "") ++ hex8 c1 c2 c3 c4 c5 c6 c7 c8)
              = hex8 c1 c2 c3 c4 c5 c6 c7 c8).
  { destruct hashed; cbn [append Py.lstrip hex8];
      rewrite ?Ascii.eqb_refl; cbn [Py.lstrip];
      now rewrite (hex_digit_not_hash c1 v1 H1). }
  unfold hex_to_rgba. rewrite L. unfold channel, hex8, Py.slice.
  cbn [Nat.add Nat.sub substring].
  rewrite (int16_pair _ _ _ _ H1 H2), (int16_pair _ _ _ _ H3 H4),
    (int16_pair _ _ _ _ H5 H6), (int16_pair _ _ _ _ H7 H8).
  reflexivity.
Qed.

(** C2. For every string of exactly eight hexadecimal digits, with or
    without a leading [#], [hex_to_rgba] returns the 4-tuple (R, G, B, A) in
    which each component is the matching pair of digits read as an integer,
    which lies in 0..255, divided by 255; each component lies between 0 and
    1. *)
Theorem hex_to_rgba_eight_digits
    (c1 c2 c3 c4 c5 c6 c7 c8 : ascii) (v1 v2 v3 v4 v5 v6 v7 v8 : Z)
    (hashed : bool) :
  Py.digit16 c1 = Some v1 -> Py.digit16 c2 = Some v2 ->
  Py.digit16 c3 = Some v3 -> Py.digit16 c4 = Some v4 ->
  Py.digit16 c5 = Some v5 -> Py.digit16 c6 = Some v6 ->
  Py.digit16 c7 = Some v7 -> Py.digit16 c8 = Some v8 ->
  exists R G B A : Z,
    R = pair_value v1 v2 /\ G = pair_value v3 v4 /\
    B = pair_value v5 v6 /\ A = pair_value v7 v8 /\
    (0 <= R <= 255)%Z /\ (0 <= G <= 255)%Z /\
    (0 <= B <= 255)%Z /\ (0 <= A <= 255)%Z /\
    hex_to_rgba ((if hashed then "#" else "") ++ hex8 c1 c2 c3 c4 c5 c6 c7 c8)
    = Some (Py.truediv R 255, Py.truediv G 255,
            Py.truediv B 255, Py.truediv A 255) /\
    unit_interval (Py.truediv R 255) /\ unit_interval (Py.truediv G 255) /\
    unit_interval (Py.truediv B 255) /\ unit_interval (Py.truediv A 255).
Proof.
  intros H1 H2 H3 H4 H5 H6 H7 H8.
  exists (pair_value v1 v2), (pair_value v3 v4),
    (pair_value v5 v6), (pair_value v7 v8).
  pose proof (pair_value_range _ _ _ _ H1 H2) as R1.
  pose proof (pair_value_range _ _ _ _ H3 H4) as R2.
  pose proof (pair_value_range _ _ _ _ H5 H6) as R3.
  pose proof (pair_value_range _ _ _ _ H7 H8) as R4.
  repeat match goal with |- _ /\ _ => split end;
    try reflexivity; try lia; try (now apply byte_channel_unit).
  now apply hex_to_rgba_digits.
Qed.

Lemma hex_to_rgba_eight_digits_witness :
  hex_to_rgba "#1e90ffff"
  = Some (Py.truediv 30 255, Py.truediv 144 255,
          Py.truediv 255 255, Py.truediv 255 255).
Proof.
  destruct (hex_to_rgba_eight_digits "1" "e" "9" "0" "f" "f" "f" "f"
              1 14 9 0 15 15 15 15 true
              eq_refl eq_refl eq_refl eq_refl eq_refl eq_refl eq_refl eq_refl)
    as (R & G & B & A & HR & HG & HB & HA & _ & _ & _ & _ & H & _).
  subst R G B A. exact H.
Defined.

(** ** The AMSR2 colour table *)

Lemma create_amsr2_colormap_value :
  create_amsr2_colormap
  = Some {| colors := amsr2_table; cmap_N := 100; bad := Mpl.black |}.
Proof. vm_compute. reflexivity. Qed.

Lemma amsr2_colormap_value_exists :
  exists cm, create_amsr2_colormap = Some cm.
Proof. eexists. apply create_amsr2_colormap_value. Qed.

Lemma entries_by_enumeration (cm : ListedColormap) (first last : nat)
    (hex : string) (c : rgba) :
  hex_to_rgba hex = Some c ->
  Forall (fun i => nth_error (colors cm) i = Some c)
    (seq first (S last - first)) ->
  entries cm first last hex.
Proof.
  intros Hc Hall. exists c. split; [exact Hc|].
  intros i Hi. rewrite Forall_forall in Hall. apply Hall.
  apply in_seq. lia.
Qed.

Ltac enumerate_entries :=
  eapply entries_by_enumeration;
  [ vm_compute; reflexivity
  | cbn [seq Nat.sub]; repeat constructor ].

(** C1. [create_amsr2_colormap] returns a lookup table of exactly 100 RGBA
    entries: entries 0-9 are the RGBA of #00008b00, 10-19 of #1e90ffff,
    20-29 of #1efaa0ff, 30-39 of #228b22ff, 40-49 of #00fa00ff, 50-59 of
    #7dfa00ff, 60-69 of #adff2fff, 70-79 of #fafa00ff, 80-84 of #fa7d00ff,
    85-89 of #fa0000ff, 90-94 of #ba55d3ff, 95-98 of #9400d3ff and entry 99
    of #78005aff; the colour for bad (invalid or missing) values is black. *)
Theorem amsr2_colormap_table :
  exists cm,
    create_amsr2_colormap = Some cm /\
    List.length (colors cm) = 100 /\ cmap_N cm = 100 /\
    entries cm 0 9 "#00008b00" /\
    entries cm 10 19 "#1e90ffff" /\
    entries cm 20 29 "#1efaa0ff" /\
    entries cm 30 39 "#228b22ff" /\
    entries cm 40 49 "#00fa00ff" /\
    entries cm 50 59 "#7dfa00ff" /\
    entries cm 60 69 "#adff2fff" /\
    entries cm 70 79 "#fafa00ff" /\
    entries cm 80 84 "#fa7d00ff" /\
    entries cm 85 89 "#fa0000ff" /\
    entries cm 90 94 "#ba55d3ff" /\
    entries cm 95 98 "#9400d3ff" /\
    entries cm 99 99 "#78005aff" /\
    bad cm = Mpl.black.
Proof.
  eexists. split; [apply create_amsr2_colormap_value|].
  repeat match goal with |- _ /\ _ => split end;
    try reflexivity; enumerate_entries.
Qed.

(** C8. In every colour map [create_amsr2_colormap] produces, the four
    components of every entry lie between 0 and 1; the entries of bucket
    [0,10) are fully transparent (alpha 0) and every other entry is fully
    opaque (alpha 1). *)
Theorem amsr2_colormap_alpha (cm : ListedColormap) (i : nat) (c : rgba) :
  create_amsr2_colormap = Some cm ->
  nth_error (colors cm) i = Some c ->
  unit_interval (red c) /\ unit_interval (green c) /\
  unit_interval (blue c) /\ unit_interval (alpha c) /\
  (i < 10 -> alpha c = 0%float) /\
  (10 <= i -> alpha c = 1%float).
Proof.
  rewrite create_amsr2_colormap_value. intros Hcm Hi.
  injection Hcm as <-. cbn [colors] in Hi.
  do 100 (destruct i as [|i];
          [ injection Hi as <-; unfold unit_interval;
            repeat match goal with |- _ /\ _ => split end;
            first [ reflexivity | intros; lia | intros _; reflexivity ]
          | ]).
  destruct i; discriminate.
Qed.

Lemma amsr2_colormap_alpha_witness :
  exists cm c,
    create_amsr2_colormap = Some cm /\ nth_error (colors cm) 42 = Some c /\
    unit_interval (red c) /\ unit_interval (green c) /\
    unit_interval (blue c) /\ unit_interval (alpha c) /\
    (42 < 10 -> alpha c = 0%float) /\ (10 <= 42 -> alpha c = 1%float).
Proof.
  eexists; eexists.
  split; [apply create_amsr2_colormap_value|].
  split; [vm_compute; reflexivity|].
  apply (amsr2_colormap_alpha
           {| colors := amsr2_table; cmap_N := 100; bad := Mpl.black |} 42).
  - apply create_amsr2_colormap_value.
  - vm_compute. reflexivity.
Defined.

(** ** Rendering one file *)

Lemma add_layer_last (figs : list figure) (f : figure) (l : layer) :
  add_layer (List.length figs) l (figs ++ [f])
  = figs ++ [{| figsize := figsize f; layers := layers f ++ [l] |}].
Proof.
  induction figs as [|g figs IH]; cbn [List.length app add_layer].
  - reflexivity.
  - now rewrite IH.
Qed.

Lemma last_snoc (figs : list figure) (f d : figure) :
  last (figs ++ [f]) d = f.
Proof. apply last_last. Qed.

Lemma snoc_not_nil (figs : list figure) (f : figure) :
  match figs ++ [f] with [] => [default_figure] | _ => figs ++ [f] end
  = figs ++ [f].
Proof. destruct figs; reflexivity. Qed.

Section Rendering.

Variable raises : call -> bool.

Variables (geojson_filepath : string) (xscale yscale dpi : argval).

Ltac run_script :=
  unfold convert_to_png, base_cmap, read_file, total_bounds, subplots,
    to_crs, plot, savefig, lib, bind, ret, str, of_option.

Ltac simpl_world :=
  repeat first
    [ rewrite add_layer_last
    | rewrite snoc_not_nil
    | rewrite last_snoc
    | progress unfold ret
    | progress cbn [stdout figures saved figsize layers app fst snd] ].

(** A run in which the library returns, in closed form. *)
Lemma convert_to_png_returns (amsr_palette : bool) (criteria : string)
    (cm : ListedColormap) (w : world) :
  library_returns raises ->
  create_amsr2_colormap = Some cm ->
  convert_to_png raises geojson_filepath xscale yscale dpi amsr_palette
    criteria w
  = (inl tt,
     rendered geojson_filepath xscale yscale dpi
       (plotted_layers geojson_filepath amsr_palette criteria cm) w).
Proof.
  intros Hlib Hcm. destruct w as [out figs sv].
  unfold rendered, plotted_layers. run_script. rewrite Hcm.
  destruct (String.eqb criteria "fuel"), amsr_palette;
    repeat first [ rewrite Hlib | progress simpl_world ];
    reflexivity.
Qed.

(** Any run: it returns with the complete rendering, or a library call
    raised, no file was written, and the figure (if it was created) holds
    the layers plotted until then. *)
Lemma convert_to_png_any (amsr_palette : bool) (criteria : string)
    (cm : ListedColormap) (w : world) :
  create_amsr2_colormap = Some cm ->
  let all := plotted_layers geojson_filepath amsr_palette criteria cm in
  let r := convert_to_png raises geojson_filepath xscale yscale dpi
             amsr_palette criteria w in
  (fst r = inl tt /\
   snd r = rendered geojson_filepath xscale yscale dpi all w) \/
  (exists c, fst r = inr (LibraryError c) /\ raises c = true /\
             stdout (snd r) = stdout w /\ saved (snd r) = saved w /\
             (figures (snd r) = figures w \/
              exists k, figures (snd r)
                        = figures w ++
                          [{| figsize := Some (xscale, yscale);
                              layers := firstn k all |}])).
Proof.
  intros Hcm all r. subst all r. destruct w as [out figs sv].
  unfold rendered, plotted_layers. run_script. rewrite Hcm.
  destruct (String.eqb criteria "fuel"), amsr_palette;
    repeat first
      [ progress simpl_world
      | match goal with
        | |- context [raises ?c] =>
            let E := fresh "E" in
            destruct (raises c) eqn:E;
            [ right; exists c; simpl_world;
              repeat split; try assumption;
              first [ left; reflexivity
                    | right; exists 0; reflexivity
                    | right; exists 1; reflexivity
                    | right; exists 2; reflexivity
                    | right; exists 3; reflexivity ]
            | ]
        end ];
    left; split; reflexivity.
Qed.

End Rendering.

Lemma Forall_firstn {A : Type} (P : A -> Prop) (k : nat) (l : list A) :
  Forall P l -> Forall P (firstn k l).
Proof.
  intros H. revert k. induction H as [|x l Hx Hl IH]; intros [|k];
    cbn [firstn]; constructor; auto.
Qed.

(** A property of every layer of a complete rendering holds of every layer
    the call plots, in any run, complete or not. *)
Lemma convert_to_png_layers (raises : call -> bool) (P : layer -> Prop)
    (geojson_filepath : string) (xscale yscale dpi : argval)
    (amsr_palette : bool) (criteria : string) (cm : ListedColormap)
    (w : world) :
  create_amsr2_colormap = Some cm ->
  Forall P (plotted_layers geojson_filepath amsr_palette criteria cm) ->
  exists new,
    figures (after (convert_to_png raises geojson_filepath xscale yscale dpi
                      amsr_palette criteria) w)
    = figures w ++ new /\
    Forall (fun f => Forall P (layers f)) new.
Proof.
  intros Hcm HP. unfold after.
  destruct (convert_to_png_any raises geojson_filepath xscale yscale dpi
              amsr_palette criteria cm w Hcm)
    as [[_ ->] | (c & _ & _ & _ & _ & [-> | [k ->]])].
  - eexists. split; [reflexivity|]. repeat constructor. exact HP.
  - exists []. split; [now rewrite app_nil_r | constructor].
  - eexists. split; [reflexivity|]. repeat constructor.
    now apply Forall_firstn.
Qed.

(** ** The batch *)

Lemma printed_nil (w : world) : printed [] w = w.
Proof. destruct w. unfold printed. cbn. now rewrite app_nil_r. Qed.

Lemma printed_cons (line : string) (lines : list string) (w : world) :
  printed lines (printed [line] w) = printed (line :: lines) w.
Proof. unfold printed. cbn. now rewrite <- app_assoc. Qed.

Section Batch.

Variable raises : call -> bool.
Variable isfile : string -> bool.
Variable abspath : string -> string.

Lemma check_loop_spec (input_filenames acc : list string) (w : world) :
  check_loop isfile abspath input_filenames acc w
  = (inl (acc ++ map abspath (filter isfile input_filenames)),
     printed (map (notice isfile) input_filenames) w).
Proof.
  revert acc w.
  induction input_filenames as [|a rest IH]; intros acc w;
    cbn [check_loop filter map].
  - unfold ret. now rewrite app_nil_r, printed_nil.
  - unfold notice at 1.
    destruct (isfile a); cbn [negb]; unfold bind, print;
      rewrite IH; fold (printed [including a] w);
      fold (printed [ignoring a] w); rewrite printed_cons;
      cbn [map]; now rewrite <- ?app_assoc.
Qed.

Lemma check_input_filenames_spec (input_filenames : list string)
    (w : world) :
  check_input_filenames isfile abspath input_filenames w
  = (inl (map abspath (filter isfile input_filenames)),
     printed (map (notice isfile) input_filenames) w).
Proof. unfold check_input_filenames. now rewrite check_loop_spec. Qed.

Variables (xs ys resolution : argval) (amsr_palette : bool)
  (column_name : string).

Lemma run_spec (fs : list string) (w : world) :
  run raises isfile abspath
    {| xscale := xs; yscale := ys; dpi := resolution;
       palette := amsr_palette; criteria := column_name; files := fs |} w
  = render_all raises xs ys resolution amsr_palette column_name
      (map abspath (filter isfile fs))
      (printed (map (notice isfile) fs) w).
Proof.
  unfold run, bind. cbn [files xscale yscale dpi palette criteria].
  now rewrite check_input_filenames_spec.
Qed.

(** When the library returns, the loop returns, prints nothing, and
    writes one file per path, in order. *)
Lemma render_all_returns (ps : list string) (w : world) :
  let loop := render_all raises xs ys resolution amsr_palette column_name in
  library_returns raises ->
  outcome (loop ps) w = inl tt /\
  stdout (after (loop ps) w) = stdout w /\
  map png_path (saved (after (loop ps) w))
  = map png_path (saved w) ++ map (fun p => (p ++ ".png")%string) ps.
Proof.
  intros loop Hlib. subst loop. unfold outcome, after. revert w.
  induction ps as [|p ps IH]; intros w; cbn [render_all for_each map].
  - cbn. now rewrite app_nil_r.
  - unfold bind.
    destruct (amsr2_colormap_value_exists) as [cm Hcm].
    rewrite (convert_to_png_returns raises p xs ys resolution amsr_palette
               column_name cm w Hlib Hcm).
    fold (render_all raises xs ys resolution amsr_palette column_name ps).
    destruct (IH (rendered p xs ys resolution
                    (plotted_layers p amsr_palette column_name cm) w))
      as (H1 & H2 & H3).
    rewrite H1, H2, H3. cbn [rendered stdout saved].
    rewrite map_app. cbn [map png_path]. rewrite <- app_assoc.
    repeat split; reflexivity.
Qed.

End Batch.

(** ** The command line *)

(** Induction on a list two elements at a time, as [consume] recurses. *)
Lemma list_ind_pairs {A : Type} (P : list A -> Prop) :
  P [] ->
  (forall a, P [a]) ->
  (forall a b l, P l -> P (b :: l) -> P (a :: b :: l)) ->
  forall l, P l.
Proof.
  intros H0 H1 H2 l.
  assert (H : P l /\ forall a, P (a :: l)).
  { induction l as [|b l [IHl IHbl]].
    - split; [exact H0 | exact H1].
    - split; [apply IHbl | intros a; apply H2; [exact IHl | apply IHbl]]. }
  apply H.
Qed.

(** A word read as an option is one of the strings of a declared option. *)
Lemma classify_option (word : string) (o : optional) :
  classify word = WOption o ->
  In o optionals /\ In word (option_strings o).
Proof.
  unfold classify. destruct (find (mentions word) optionals) as [o'|] eqn:F.
  - intros H. injection H as <-. apply find_some in F. destruct F as [Hin Hm].
    split; [exact Hin|]. unfold mentions in Hm.
    apply existsb_exists in Hm. destruct Hm as (s & Hs & He).
    apply String.eqb_eq in He. now subst.
  - intros H. destruct word as [|c rest]; [discriminate|].
    destruct rest; destruct c as [[] [] [] [] [] [] [] []]; discriminate.
Qed.

Lemma classify_dest (word : string) (o : optional) :
  classify word = WOption o -> In word (strings_of (opt_dest o)).
Proof.
  intros H. apply classify_option in H. destruct H as [Hin Hw].
  unfold optionals in Hin. cbn [In] in Hin.
  repeat (destruct Hin as [<- | Hin]; [exact Hw|]). contradiction.
Qed.

Section Fields.

(** A field of the namespace that only the options of [d] write. *)
Context {A : Type} (proj : Namespace -> A) (d : dest).
Hypothesis store_other :
  forall d' v ns, d' <> d -> proj (store_value d' v ns) = proj ns.
Hypothesis store_true_other :
  forall d' ns, d' <> d -> proj (store_const_true d' ns) = proj ns.
Hypothesis files_other :
  forall v ns, proj (set_files v ns) = proj ns.

Lemma absent_other (word : string) (words : list string) (o : optional) :
  flag_absent d (word :: words) ->
  classify word = WOption o -> opt_dest o <> d.
Proof.
  intros Habs Hc Heq. apply classify_dest in Hc. rewrite Heq in Hc.
  exact (Habs word (or_introl eq_refl) Hc).
Qed.

Lemma absent_tail (word : string) (words : list string) :
  flag_absent d (word :: words) -> flag_absent d words.
Proof. intros H x Hx. apply H. now right. Qed.

(** [consume] leaves the field alone when the flag is absent. *)
Lemma consume_keeps (words : list string) :
  forall ns pos extras args,
    flag_absent d words ->
    consume words ns pos extras = Parsed args ->
    proj args = proj ns.
Proof.
  induction words as [| a | a b l IHl IHbl] using list_ind_pairs;
    intros ns pos extras args Habs H.
  - cbn [consume] in H. destruct pos, extras; try discriminate;
      now injection H as <-.
  - cbn [consume] in H.
    destruct (classify a) as [o| |] eqn:Ca; try discriminate.
    + pose proof (absent_other _ _ _ Habs Ca) as Hd.
      destruct (opt_action o); try discriminate.
      destruct (close pos), extras; try discriminate;
        injection H as <-; now apply store_true_other.
    + destruct pos, extras; try discriminate; injection H as <-;
        apply files_other.
  - pose proof (absent_tail _ _ Habs) as Habs1.
    pose proof (absent_tail _ _ Habs1) as Habs2.
    cbn [consume] in H.
    destruct (classify a) as [o| |] eqn:Ca; try discriminate.
    + pose proof (absent_other _ _ _ Habs Ca) as Hd.
      destruct (opt_action o).
      * destruct (classify b) eqn:Cb; try discriminate.
        apply IHl in H; [|exact Habs2]. rewrite H. now apply store_other.
      * apply IHbl in H; [|exact Habs1]. rewrite H.
        now apply store_true_other.
    + destruct pos; apply IHbl in H; try exact Habs1; rewrite H;
        try apply files_other; reflexivity.
Qed.

Lemma parse_args_keeps (argv : list string) (args : Namespace) :
  flag_absent d argv ->
  parse_args argv = Parsed args ->
  proj args = proj defaults.
Proof.
  unfold parse_args. intros Habs H.
  destruct (forallb in_fragment argv); [|discriminate].
  now apply consume_keeps in H.
Qed.

End Fields.

Ltac other_field :=
  intros; match goal with
          | d' : dest |- _ => destruct d'; try reflexivity; congruence
          | |- _ => reflexivity
          end.

Lemma default_xscale (argv : list string) (args : Namespace) :
  flag_absent d_xscale argv -> parse_args argv = Parsed args ->
  xscale args = AInt 40.
Proof. apply (parse_args_keeps xscale d_xscale); other_field. Qed.

Lemma default_yscale (argv : list string) (args : Namespace) :
  flag_absent d_yscale argv -> parse_args argv = Parsed args ->
  yscale args = AInt 30.
Proof. apply (parse_args_keeps yscale d_yscale); other_field. Qed.

Lemma default_dpi (argv : list string) (args : Namespace) :
  flag_absent d_dpi argv -> parse_args argv = Parsed args ->
  dpi args = AInt 180.
Proof. apply (parse_args_keeps dpi d_dpi); other_field. Qed.

Lemma default_palette (argv : list string) (args : Namespace) :
  flag_absent d_palette argv -> parse_args argv = Parsed args ->
  palette args = false.
Proof. apply (parse_args_keeps palette d_palette); other_field. Qed.

Lemma default_criteria (argv : list string) (args : Namespace) :
  flag_absent d_criteria argv -> parse_args argv = Parsed args ->
  criteria args = "SIC".
Proof. apply (parse_args_keeps criteria d_criteria); other_field. Qed.

Lemma consume_plain_run (words : list string) :
  Forall plain words ->
  forall ns,
    consume words ns Collecting [] = Parsed (set_files (files ns ++ words) ns).
Proof.
  induction 1 as [|word words Hw Hws IH]; intros ns; cbn [consume].
  - rewrite app_nil_r. now destruct ns.
  - unfold plain in Hw. rewrite Hw, IH. cbn [files set_files].
    now rewrite <- app_assoc.
Qed.

Lemma forallb_plain (words : list string) :
  Forall plain words -> forallb in_fragment words = true.
Proof.
  intros H. apply forallb_forall. intros x Hx.
  rewrite Forall_forall in H. unfold in_fragment. now rewrite (H x Hx).
Qed.

(** Only file paths on the command line: every option has its default and
    [files] is the command line. *)
Lemma parse_args_files_only (word : string) (words : list string) :
  Forall plain (word :: words) ->
  parse_args (word :: words)
  = Parsed {| xscale := AInt 40; yscale := AInt 30; dpi := AInt 180;
              palette := false; criteria := "SIC";
              files := word :: words |}.
Proof.
  intros H. unfold parse_args. rewrite (forallb_plain _ H).
  inversion H as [|? ? Hw Hws]; subst. cbn [consume].
  unfold plain in Hw. rewrite Hw. now rewrite consume_plain_run.
Qed.

(** A parsed command line has at least one file. *)
Lemma consume_files_nonempty (words : list string) :
  forall ns pos extras args,
    (pos <> Unseen -> files ns <> []) ->
    consume words ns pos extras = Parsed args ->
    files args <> [].
Proof.
  induction words as [| a | a b l IHl IHbl] using list_ind_pairs;
    intros ns pos extras args Hns H.
  - cbn [consume] in H. destruct pos, extras; try discriminate;
      injection H as <-; apply Hns; discriminate.
  - cbn [consume] in H.
    destruct (classify a) as [o| |]; try discriminate.
    + destruct (opt_action o); try discriminate.
      destruct pos, extras; try discriminate; injection H as <-;
        destruct (opt_dest o); cbn; apply Hns; discriminate.
    + destruct pos, extras; try discriminate; injection H as <-; cbn;
        try discriminate; try (apply Hns; discriminate).
      intros E. apply app_eq_nil in E. destruct E; discriminate.
  - cbn [consume] in H.
    destruct (classify a) as [o| |]; try discriminate.
    + destruct (opt_action o).
      * destruct (classify b); try discriminate.
        apply IHl in H; [exact H|].
        intros Hp. destruct (opt_dest o); cbn; apply Hns;
          destruct pos; cbn in Hp; congruence.
      * apply IHbl in H; [exact H|].
        intros Hp. destruct (opt_dest o); cbn; apply Hns;
          destruct pos; cbn in Hp; congruence.
    + destruct pos; apply IHbl in H; try exact H; intros _; cbn;
        try discriminate; try (apply Hns; discriminate).
      intros E. apply app_eq_nil in E. destruct E; discriminate.
Qed.

Lemma parse_args_files_nonempty (argv : list string) (args : Namespace) :
  parse_args argv = Parsed args -> files args <> [].
Proof.
  unfold parse_args. destruct (forallb in_fragment argv); [|discriminate].
  apply consume_files_nonempty. intros H. now contradiction H.
Qed.

Lemma no_raise_returns : library_returns no_raise.
Proof. intros c. reflexivity. Defined.

(** * The claims about rendering *)

(** C5. For every input file that reaches it, [convert_to_png] saves exactly
    one PNG, whose path is the input path with [.png] appended, from a
    figure of size (xscale, yscale) and at the requested DPI.  In any run
    nothing else is written; when the library calls return, the call
    returns and the file is written from the current figure. *)
Theorem convert_to_png_saves_one_png (raises : call -> bool)
    (geojson_filepath : string) (xscale yscale dpi : argval)
    (amsr_palette : bool) (criteria : string) (w : world) :
  let w' := after (convert_to_png raises geojson_filepath xscale yscale dpi
                     amsr_palette criteria) w in
  (saved w' = saved w \/
   exists fig,
     saved w' = saved w ++ [{| png_path := geojson_filepath ++ ".png";
                               png_dpi := dpi; png_figure := fig |}] /\
     figsize fig = Some (xscale, yscale)) /\
  (library_returns raises ->
   outcome (convert_to_png raises geojson_filepath xscale yscale dpi
              amsr_palette criteria) w = inl tt /\
   exists fig,
     saved w' = saved w ++ [{| png_path := geojson_filepath ++ ".png";
                               png_dpi := dpi; png_figure := fig |}] /\
     figsize fig = Some (xscale, yscale) /\
     last (figures w') default_figure = fig).
Proof.
  destruct amsr2_colormap_value_exists as [cm Hcm]. cbv zeta. split.
  - unfold after.
    destruct (convert_to_png_any raises geojson_filepath xscale yscale dpi
                amsr_palette criteria cm w Hcm)
      as [[_ ->] | (c & _ & _ & _ & -> & _)].
    + right. eexists. split; reflexivity.
    + now left.
  - intros Hlib. unfold outcome, after.
    rewrite (convert_to_png_returns raises geojson_filepath xscale yscale dpi
               amsr_palette criteria cm w Hlib Hcm).
    split; [reflexivity|]. eexists. split; [reflexivity|].
    split; [reflexivity|]. cbn [snd rendered figures]. apply last_snoc.
Qed.

Lemma convert_to_png_saves_one_png_witness :
  outcome (convert_to_png no_raise "/data/mesh.json" (AInt 40) (AInt 30)
             (AInt 180) false "SIC") empty_world = inl tt.
Proof.
  pose proof (convert_to_png_saves_one_png no_raise "/data/mesh.json"
                (AInt 40) (AInt 30) (AInt 180) false "SIC" empty_world) as H.
  cbv zeta in H. destruct H as [_ H].
  destruct (H no_raise_returns) as [H1 _]. exact H1.
Defined.

(** C7. Every layer [convert_to_png] plots (the [inaccessible] layer of the
    fuel criteria, the layer of the criteria column, the [land] layer) is
    drawn from the data reprojected to EPSG:4326, in any run; when the
    library calls return, the [land] layer is the last one drawn, with brown
    edges and the [copper] colour map, a style of its own next to the grey
    edges and the colour map of the criteria layer. *)
Theorem layers_reprojected_and_land_last (raises : call -> bool)
    (geojson_filepath : string) (xscale yscale dpi : argval)
    (amsr_palette : bool) (criteria : string) (w : world) :
  let w' := after (convert_to_png raises geojson_filepath xscale yscale dpi
                     amsr_palette criteria) w in
  (exists new,
     figures w' = figures w ++ new /\
     Forall (fun f =>
               Forall (fun l => layer_data l
                                = Reprojected (FileFrame geojson_filepath) 4326)
                 (layers f)) new) /\
  (library_returns raises ->
   exists fig earlier main top,
     saved w' = saved w ++ [{| png_path := geojson_filepath ++ ".png";
                               png_dpi := dpi; png_figure := fig |}] /\
     layers fig = earlier ++ [main; top] /\
     (earlier = [] \/
      exists first, earlier = [first] /\
                    column (layer_kwargs first) = "inaccessible") /\
     column (layer_kwargs main) = criteria /\
     edgecolor (layer_kwargs main) = Some "grey" /\
     top = {| layer_data := Reprojected (FileFrame geojson_filepath) 4326;
              layer_kwargs := {| column := "land";
                                 edgecolor := Some "brown";
                                 linewidth := Some 0.5%float;
                                 cmap := CmapName "copper" |} |} /\
     edgecolor (layer_kwargs top) <> edgecolor (layer_kwargs main) /\
     cmap (layer_kwargs top) <> cmap (layer_kwargs main)).
Proof.
  destruct amsr2_colormap_value_exists as [cm Hcm]. cbv zeta. split.
  - apply (convert_to_png_layers raises _ geojson_filepath xscale yscale dpi
             amsr_palette criteria cm w Hcm).
    unfold plotted_layers.
    destruct (String.eqb criteria "fuel"); repeat constructor.
  - intros Hlib. unfold after.
    rewrite (convert_to_png_returns raises geojson_filepath xscale yscale dpi
               amsr_palette criteria cm w Hlib Hcm).
    cbn [snd rendered saved]. unfold plotted_layers.
    eexists. eexists. eexists. eexists.
    split; [reflexivity|]. cbn [layers]. split; [reflexivity|].
    split.
    { destruct (String.eqb criteria "fuel");
        [right; eexists; split; reflexivity | now left]. }
    repeat split; cbn; try congruence.
    destruct amsr_palette; [congruence|].
    destruct (String.eqb criteria "fuel"); congruence.
Qed.

Lemma layers_reprojected_and_land_last_witness :
  exists fig earlier main,
    saved (after (convert_to_png no_raise "/data/mesh.json" (AInt 40)
                    (AInt 30) (AInt 180) false "fuel") empty_world)
    = [{| png_path := "/data/mesh.json.png"; png_dpi := AInt 180;
          png_figure := fig |}] /\
    layers fig = earlier ++ [main; land_layer "/data/mesh.json"].
Proof.
  pose proof (layers_reprojected_and_land_last no_raise "/data/mesh.json"
                (AInt 40) (AInt 30) (AInt 180) false "fuel" empty_world) as H.
  cbv zeta in H. destruct H as [_ H].
  destruct (H no_raise_returns)
    as (fig & earlier & main & top & Hs & Hl & _ & _ & _ & Htop & _).
  exists fig, earlier, main. subst top. split; [exact Hs | exact Hl].
Defined.

(** C4. For every call of [convert_to_png] whose criteria is [fuel], the
    base colour map (the local [default_cmap] of lines 79-83) is switched
    from [coolwarm], which every other criteria keeps, to [Wistia], and an
    extra layer plotting the [inaccessible] column with the [RdYlBu] colour
    map is put on the same axes, ahead of the criteria layer; the criteria
    layer is drawn with the base colour map unless the AMSR2 palette is
    selected. *)
Theorem fuel_switches_base_colormap_and_adds_layer (raises : call -> bool)
    (geojson_filepath : string) (xscale yscale dpi : argval)
    (amsr_palette : bool) (criteria : string) (w : world) :
  str criteria = "fuel" ->
  library_returns raises ->
  (forall df ax w0, outcome (base_cmap raises df ax criteria) w0
                    = inl "Wistia") /\
  (forall df ax other w0,
      String.eqb (str other) "fuel" = false ->
      base_cmap raises df ax other w0 = (inl "coolwarm", w0)) /\
  exists cm fig,
    create_amsr2_colormap = Some cm /\
    outcome (convert_to_png raises geojson_filepath xscale yscale dpi
               amsr_palette criteria) w = inl tt /\
    saved (after (convert_to_png raises geojson_filepath xscale yscale dpi
                    amsr_palette criteria) w)
    = saved w ++ [{| png_path := geojson_filepath ++ ".png";
                     png_dpi := dpi; png_figure := fig |}] /\
    layers fig
    = [ {| layer_data := Reprojected (FileFrame geojson_filepath) 4326;
           layer_kwargs := {| column := "inaccessible"; edgecolor := None;
                              linewidth := None;
                              cmap := CmapName "RdYlBu" |} |};
        {| layer_data := Reprojected (FileFrame geojson_filepath) 4326;
           layer_kwargs := {| column := "fuel"; edgecolor := Some "grey";
                              linewidth := Some 0.5%float;
                              cmap := if amsr_palette then CmapObject cm
                                      else CmapName "Wistia" |} |};
        land_layer geojson_filepath ].
Proof.
  unfold str. intros -> Hlib. split; [|split].
  - intros df ax w0. unfold outcome, base_cmap, str, to_crs, plot, lib, bind.
    cbn [String.eqb Ascii.eqb Bool.eqb]. now rewrite !Hlib.
  - intros df ax other w0 Hother. unfold base_cmap, str in *.
    now rewrite Hother.
  - destruct amsr2_colormap_value_exists as [cm Hcm].
    exists cm. eexists. split; [exact Hcm|]. unfold outcome, after.
    rewrite (convert_to_png_returns raises geojson_filepath xscale yscale dpi
               amsr_palette "fuel" cm w Hlib Hcm).
    split; [reflexivity|]. split; [reflexivity|].
    cbn [layers]. unfold plotted_layers.
    cbn [String.eqb Ascii.eqb Bool.eqb app]. reflexivity.
Qed.

Lemma fuel_switches_base_colormap_and_adds_layer_witness :
  outcome (base_cmap no_raise (FileFrame "/data/mesh.json") 0 "fuel")
    empty_world = inl "Wistia".
Proof.
  destruct (fuel_switches_base_colormap_and_adds_layer no_raise
              "/data/mesh.json" (AInt 40) (AInt 30) (AInt 180) false "fuel"
              empty_world eq_refl no_raise_returns) as [H _].
  apply H.
Defined.

(** C9. For every call of [convert_to_png] with criteria [fuel] and the AMSR
    palette flag set, no layer is ever drawn with the [Wistia] colour map, in
    any run; when the library calls return, the criteria layer is drawn with
    the AMSR2 colour map.  The palette flag takes precedence over the colour
    map switch of the fuel criteria. *)
Theorem palette_takes_precedence_over_fuel (raises : call -> bool)
    (geojson_filepath : string) (xscale yscale dpi : argval) (w : world) :
  let w' := after (convert_to_png raises geojson_filepath xscale yscale dpi
                     true "fuel") w in
  (exists new,
     figures w' = figures w ++ new /\
     Forall (fun f =>
               Forall (fun l => cmap (layer_kwargs l) <> CmapName "Wistia")
                 (layers f)) new) /\
  (library_returns raises ->
   exists cm fig main,
     create_amsr2_colormap = Some cm /\
     saved w' = saved w ++ [{| png_path := geojson_filepath ++ ".png";
                               png_dpi := dpi; png_figure := fig |}] /\
     layers fig = [inaccessible_layer geojson_filepath; main;
                   land_layer geojson_filepath] /\
     layer_data main = Reprojected (FileFrame geojson_filepath) 4326 /\
     column (layer_kwargs main) = "fuel" /\
     cmap (layer_kwargs main) = CmapObject cm).
Proof.
  destruct amsr2_colormap_value_exists as [cm Hcm]. cbv zeta. split.
  - apply (convert_to_png_layers raises _ geojson_filepath xscale yscale dpi
             true "fuel" cm w Hcm).
    unfold plotted_layers. cbn [String.eqb Ascii.eqb Bool.eqb app].
    repeat constructor; cbn; congruence.
  - intros Hlib. unfold after.
    rewrite (convert_to_png_returns raises geojson_filepath xscale yscale dpi
               true "fuel" cm w Hlib Hcm).
    exists cm. eexists. eexists. split; [exact Hcm|].
    cbn [snd rendered saved layers]. split; [reflexivity|].
    unfold plotted_layers. cbn [String.eqb Ascii.eqb Bool.eqb app].
    repeat split; reflexivity.
Qed.

Lemma palette_takes_precedence_over_fuel_witness :
  exists cm fig main,
    create_amsr2_colormap = Some cm /\
    saved (after (convert_to_png no_raise "/data/mesh.json" (AInt 40)
                    (AInt 30) (AInt 180) true "fuel") empty_world)
    = [{| png_path := "/data/mesh.json.png"; png_dpi := AInt 180;
          png_figure := fig |}] /\
    layers fig = [inaccessible_layer "/data/mesh.json"; main;
                  land_layer "/data/mesh.json"] /\
    cmap (layer_kwargs main) = CmapObject cm.
Proof.
  pose proof (palette_takes_precedence_over_fuel no_raise "/data/mesh.json"
                (AInt 40) (AInt 30) (AInt 180) empty_world) as H.
  cbv zeta in H. destruct H as [_ H].
  destruct (H no_raise_returns)
    as (cm & fig & main & Hcm & Hs & Hl & _ & _ & Hc).
  exists cm, fig, main. repeat split; assumption.
Defined.

(** * The claims about the command line and the batch *)

(** C6. An option whose flag is not on the command line has its default:
    width 40, height 30, DPI 180, the AMSR2 palette off and the column
    [SIC]; with the palette off and that column the criteria layer is drawn
    with the diverging colour map [coolwarm].  The positional takes one or
    more paths: a command line of paths only gives them all as [files], an
    empty one is a usage error, and no parse leaves [files] empty. *)
Theorem cli_defaults :
  (forall argv args,
      parse_args argv = Parsed args ->
      (flag_absent d_xscale argv -> xscale args = AInt 40) /\
      (flag_absent d_yscale argv -> yscale args = AInt 30) /\
      (flag_absent d_dpi argv -> dpi args = AInt 180) /\
      (flag_absent d_palette argv -> palette args = false) /\
      (flag_absent d_criteria argv -> criteria args = "SIC") /\
      files args <> []) /\
  (forall word words,
      Forall plain (word :: words) ->
      parse_args (word :: words)
      = Parsed {| xscale := AInt _XSCALE; yscale := AInt _YSCALE;
                  dpi := AInt _DPI; palette := false; criteria := "SIC";
                  files := word :: words |}) /\
  _XSCALE = 40%Z /\ _YSCALE = 30%Z /\ _DPI = 180%Z /\
  parse_args [] = Usage FilesRequired /\
  (forall raises geojson_filepath w,
      library_returns raises ->
      exists fig main rest,
        saved (after (convert_to_png raises geojson_filepath
                        (xscale defaults) (yscale defaults) (dpi defaults)
                        (palette defaults) (criteria defaults)) w)
        = saved w ++ [{| png_path := geojson_filepath ++ ".png";
                         png_dpi := AInt 180; png_figure := fig |}] /\
        figsize fig = Some (AInt 40, AInt 30) /\
        layers fig = main :: rest /\
        column (layer_kwargs main) = "SIC" /\
        cmap (layer_kwargs main) = CmapName "coolwarm").
Proof.
  split; [|split; [|repeat split]].
  - intros argv args H. repeat split; intros.
    + now apply (default_xscale argv).
    + now apply (default_yscale argv).
    + now apply (default_dpi argv).
    + now apply (default_palette argv).
    + now apply (default_criteria argv).
    + now apply (parse_args_files_nonempty argv).
  - intros word words H. now apply parse_args_files_only.
  - intros raises geojson_filepath w Hlib.
    destruct amsr2_colormap_value_exists as [cm Hcm]. unfold after.
    rewrite (convert_to_png_returns raises geojson_filepath _ _ _ _ _ cm w
               Hlib Hcm).
    eexists. eexists. eexists. repeat split.
Qed.

Lemma cli_defaults_witness :
  exists args,
    parse_args ["-y"; "20"; "--palette_amsr"; "a.json"; "b.json"]
    = Parsed args /\
    xscale args = AInt 40 /\ yscale args = AStr "20" /\
    files args = ["a.json"; "b.json"].
Proof.
  eexists. split; [reflexivity|]. split; [|split; reflexivity].
  destruct cli_defaults as [H _].
  destruct (H ["-y"; "20"; "--palette_amsr"; "a.json"; "b.json"] _ eq_refl)
    as [Hx _].
  apply Hx. intros word Hin Hflag. cbn in Hin, Hflag.
  repeat (destruct Hin as [<- | Hin];
          [ repeat (destruct Hflag as [Hflag | Hflag]; try discriminate);
            contradiction | ]).
  contradiction.
Defined.

(** C3 as stated fails.  With the working directory [/cwd], the inputs
    [mesh.json] (a file) and [missing.json] (not one) give back
    [/cwd/mesh.json], which is not the given path [mesh.json]: line 44
    appends [os.path.abspath(a_filename)]. *)
Lemma check_input_filenames_not_the_given_paths :
  outcome (check_input_filenames sample_isfile sample_abspath
             ["mesh.json"; "missing.json"]) empty_world
  = inl ["/cwd/mesh.json"] /\
  filter sample_isfile ["mesh.json"; "missing.json"] = ["mesh.json"] /\
  outcome (check_input_filenames sample_isfile sample_abspath
             ["mesh.json"; "missing.json"]) empty_world
  <> inl (filter sample_isfile ["mesh.json"; "missing.json"]).
Proof.
  split; [reflexivity|]. split; [reflexivity|].
  vm_compute. intros H. discriminate H.
Qed.

(** C3 (amended). For every list of input file paths,
    [check_input_filenames] returns the absolute form ([os.path.abspath]) of
    exactly those paths that name existing files and prints a warning for
    each path that is not an existing file; the loop of [main] then runs
    [convert_to_png] on every surviving file, from the state the check
    leaves, and when the library calls return it returns with one PNG per
    surviving file: a missing input never aborts the processing of the
    remaining inputs. *)
Theorem missing_inputs_are_skipped (raises : call -> bool)
    (isfile : string -> bool) (abspath : string -> string)
    (xs ys resolution : argval) (amsr_palette : bool) (column_name : string)
    (fs : list string) (w : world) :
  let args := {| xscale := xs; yscale := ys; dpi := resolution;
                 palette := amsr_palette; criteria := column_name;
                 files := fs |} in
  let survivors := map abspath (filter isfile fs) in
  let checked := after (check_input_filenames isfile abspath fs) w in
  outcome (check_input_filenames isfile abspath fs) w = inl survivors /\
  stdout checked
  = stdout w ++
    map (fun p => if isfile p then ("Including filename: " ++ p)%string
                  else ("Filename " ++ p ++
                        " is not a file (or doesn't exist): Ignoring")%string)
      fs /\
  figures checked = figures w /\ saved checked = saved w /\
  (forall p, In p fs -> isfile p = false ->
             In ("Filename " ++ p ++
                 " is not a file (or doesn't exist): Ignoring")%string
               (stdout checked)) /\
  (forall argv,
      parse_args argv = Parsed args ->
      main raises isfile abspath argv = run raises isfile abspath args) /\
  run raises isfile abspath args w
  = for_each survivors
      (fun geojson_filepath =>
         convert_to_png raises geojson_filepath xs ys resolution amsr_palette
           column_name) checked /\
  (library_returns raises ->
   outcome (run raises isfile abspath args) w = inl tt /\
   map png_path (saved (after (run raises isfile abspath args) w))
   = map png_path (saved w) ++
     map (fun p => (p ++ ".png")%string) survivors).
Proof.
  cbv zeta. unfold outcome, after.
  rewrite run_spec, check_input_filenames_spec. cbn [fst snd].
  split; [reflexivity|]. split; [reflexivity|].
  split; [reflexivity|]. split; [reflexivity|]. split; [|split; [|split]].
  - intros p Hin Hp. cbn [printed stdout]. apply in_or_app. right.
    apply in_map_iff. exists p. split; [|exact Hin].
    unfold notice. now rewrite Hp.
  - intros argv Hargv. unfold main. now rewrite Hargv.
  - reflexivity.
  - intros Hlib.
    destruct (render_all_returns raises xs ys resolution amsr_palette
                column_name (map abspath (filter isfile fs))
                (printed (map (notice isfile) fs) w) Hlib)
      as (H1 & _ & H3).
    unfold outcome, after in H1, H3. split; [exact H1|].
    rewrite H3. reflexivity.
Qed.

Lemma missing_inputs_are_skipped_witness :
  map png_path
    (saved (after (run no_raise sample_isfile sample_abspath
                     {| xscale := AInt 40; yscale := AInt 30;
                        dpi := AInt 180; palette := false;
                        criteria := "SIC";
                        files := ["missing.json"; "mesh.json";
                                  "/data/b.json"] |}) empty_world))
  = ["/cwd/mesh.json.png"; "/data/b.json.png"].
Proof.
  pose proof (missing_inputs_are_skipped no_raise sample_isfile
                sample_abspath (AInt 40) (AInt 30) (AInt 180) false "SIC"
                ["missing.json"; "mesh.json"; "/data/b.json"] empty_world)
    as H.
  cbv zeta in H.
  destruct H as (_ & _ & _ & _ & _ & _ & _ & H).
  destruct (H no_raise_returns) as [_ H2]. exact H2.
Defined.

(** C10. For every input list, [check_input_filenames] returns exactly the
    absolute paths ([os.path.abspath]) of the inputs that exist, in the
    order given and with duplicates kept: the result on a concatenation is
    the concatenation of the results, and an existing file listed twice is
    returned twice.  So, when the library calls return, a file listed twice
    is rendered twice, and each PNG is written at the absolute input path
    with [.png] appended. *)
Theorem checked_files_absolute_ordered_with_duplicates
    (raises : call -> bool) (isfile : string -> bool)
    (abspath : string -> string) (xs ys resolution : argval)
    (amsr_palette : bool) (column_name : string) (fs : list string)
    (w : world) :
  let args := fun l => {| xscale := xs; yscale := ys; dpi := resolution;
                          palette := amsr_palette; criteria := column_name;
                          files := l |} in
  outcome (check_input_filenames isfile abspath fs) w
  = inl (map abspath (filter isfile fs)) /\
  (forall fs1 fs2 r1 r2,
      outcome (check_input_filenames isfile abspath fs1) w = inl r1 ->
      outcome (check_input_filenames isfile abspath fs2) w = inl r2 ->
      outcome (check_input_filenames isfile abspath (fs1 ++ fs2)) w
      = inl (r1 ++ r2)) /\
  (forall p,
      isfile p = true ->
      outcome (check_input_filenames isfile abspath [p; p]) w
      = inl [abspath p; abspath p]) /\
  (library_returns raises ->
   map png_path (saved (after (run raises isfile abspath (args fs)) w))
   = map png_path (saved w) ++
     map (fun p => (abspath p ++ ".png")%string) (filter isfile fs)) /\
  (library_returns raises ->
   forall p,
     isfile p = true ->
     map png_path (saved (after (run raises isfile abspath (args [p; p])) w))
     = map png_path (saved w) ++
       [(abspath p ++ ".png")%string; (abspath p ++ ".png")%string]).
Proof.
  cbv zeta.
  assert (R : forall l,
             library_returns raises ->
             map png_path
               (saved (after (run raises isfile abspath
                                {| xscale := xs; yscale := ys;
                                   dpi := resolution;
                                   palette := amsr_palette;
                                   criteria := column_name; files := l |}) w))
             = map png_path (saved w) ++
               map (fun p => (abspath p ++ ".png")%string) (filter isfile l)).
  { intros l Hlib. unfold after. rewrite run_spec.
    destruct (render_all_returns raises xs ys resolution amsr_palette
                column_name (map abspath (filter isfile l))
                (printed (map (notice isfile) l) w) Hlib)
      as (_ & _ & H3).
    unfold after in H3. rewrite H3. cbn [printed saved].
    now rewrite map_map. }
  unfold outcome. split; [|split; [|split; [|split]]].
  - now rewrite check_input_filenames_spec.
  - intros fs1 fs2 r1 r2. rewrite !check_input_filenames_spec. cbn [fst].
    intros H1 H2. injection H1 as <-. injection H2 as <-.
    now rewrite filter_app, map_app.
  - intros p Hp. rewrite check_input_filenames_spec. cbn [fst filter map].
    now rewrite Hp.
  - intros Hlib. now apply R.
  - intros Hlib p Hp. rewrite (R [p; p] Hlib). cbn [filter map].
    now rewrite Hp.
Qed.

Lemma checked_files_absolute_ordered_with_duplicates_witness :
  map png_path
    (saved (after (run no_raise sample_isfile sample_abspath
                     {| xscale := AInt 40; yscale := AInt 30;
                        dpi := AInt 180; palette := false;
                        criteria := "SIC";
                        files := ["mesh.json"; "mesh.json"] |}) empty_world))
  = ["/cwd/mesh.json.png"; "/cwd/mesh.json.png"].
Proof.
  pose proof (checked_files_absolute_ordered_with_duplicates no_raise
                sample_isfile sample_abspath (AInt 40) (AInt 30) (AInt 180)
                false "SIC" ["mesh.json"; "mesh.json"] empty_world) as H.
  cbv zeta in H.
  destruct H as (_ & _ & _ & _ & H).
  exact (H no_raise_returns "mesh.json" eq_refl).
Defined.

(** * Further properties of [hex_to_rgba] *)

Lemma substring_beyond (n m : nat) (s : string) :
  String.length s <= n -> substring n m s = EmptyString.
Proof.
  revert s. induction n as [|n IH]; intros [|c s] H; cbn in H |- *.
  - destruct m; reflexivity.
  - lia.
  - reflexivity.
  - apply IH. lia.
Qed.

Lemma substring_append (n m : nat) (a t : string) :
  n + m <= String.length a ->
  substring n m (a ++ t) = substring n m a.
Proof.
  revert m a. induction n as [|n IH]; intros m a H.
  - revert a H. induction m as [|m IHm]; intros a H.
    + destruct a; cbn; destruct t; reflexivity.
    + destruct a as [|c a]; cbn in *; [lia|]. f_equal. apply IHm. lia.
  - destruct a as [|c a]; cbn in *; [lia|]. apply IH. lia.
Qed.

Lemma substring_length (n m : nat) (s : string) :
  String.length (substring n m s) <= m.
Proof.
  revert m s. induction n as [|n IH]; intros m s.
  - revert s. induction m as [|m IHm]; intros [|c s]; cbn; try lia.
    specialize (IHm s). lia.
  - destruct s as [|c s]; cbn; [destruct m; cbn; lia | apply IH].
Qed.

Lemma lstrip_append (ch : ascii) (s t : string) :
  Py.lstrip ch s <> EmptyString ->
  Py.lstrip ch (s ++ t) = (Py.lstrip ch s ++ t)%string.
Proof.
  induction s as [|c s IH]; cbn; intros H.
  - now contradiction H.
  - destruct (Ascii.eqb c ch); [now apply IH | reflexivity].
Qed.

Lemma lstrip_hashes (n : nat) (s : string) :
  Py.lstrip "#" (hashes n ++ s) = Py.lstrip "#" s.
Proof. induction n as [|n IH]; cbn; [reflexivity | exact IH]. Qed.

(** X1. A string that has six characters or fewer once its leading [#]
    are stripped has no alpha pair: [hex_to_rgba] raises [ValueError].  A
    six-digit colour such as [#ff0000] is not accepted. *)
Theorem hex_to_rgba_needs_alpha (hex_color_string : string) :
  String.length (Py.lstrip "#" hex_color_string) <= 6 ->
  hex_to_rgba hex_color_string = None.
Proof.
  intros H. unfold hex_to_rgba.
  assert (A : channel (Py.lstrip "#" hex_color_string) 6 = None).
  { unfold channel, Py.slice. cbn [Nat.add Nat.sub].
    now rewrite substring_beyond. }
  rewrite A.
  destruct (channel _ 0); [|reflexivity].
  destruct (channel _ 2); [|reflexivity].
  destruct (channel _ 4); reflexivity.
Qed.

Lemma hex_to_rgba_needs_alpha_witness : hex_to_rgba "#ff0000" = None.
Proof. apply hex_to_rgba_needs_alpha. cbn. lia. Defined.

(** X2. Only the first eight characters after the leading [#] are read:
    whatever follows them does not change the result. *)
Theorem hex_to_rgba_ignores_tail (hex_color_string tail : string) :
  8 <= String.length (Py.lstrip "#" hex_color_string) ->
  hex_to_rgba (hex_color_string ++ tail) = hex_to_rgba hex_color_string.
Proof.
  intros H. unfold hex_to_rgba.
  rewrite lstrip_append by (intros E; rewrite E in H; cbn in H; lia).
  unfold channel, Py.slice. cbn [Nat.add Nat.sub].
  now rewrite !substring_append by lia.
Qed.

Lemma hex_to_rgba_ignores_tail_witness :
  hex_to_rgba "#1e90ffff and more" = hex_to_rgba "#1e90ffff".
Proof.
  apply (hex_to_rgba_ignores_tail "#1e90ffff" " and more"). cbn. lia.
Defined.

(** X3. Any number of leading [#] characters is stripped, not just one. *)
Theorem hex_to_rgba_strips_every_hash (n : nat) (rest : string) :
  hex_to_rgba (hashes n ++ rest) = hex_to_rgba rest.
Proof. unfold hex_to_rgba. now rewrite lstrip_hashes. Qed.

Lemma int16_small_one :
  forallb (fun c => int16_small (String c EmptyString)) all_ascii = true.
Proof. vm_compute. reflexivity. Qed.

Lemma int16_small_two :
  forallb (fun c1 =>
             forallb (fun c2 => int16_small (String c1 (String c2 EmptyString)))
               all_ascii) all_ascii = true.
Proof. vm_compute. reflexivity. Qed.

Lemma int16_short (s : string) (n : Z) :
  String.length s <= 2 -> Py.int16 s = Some n -> (-255 <= n <= 255)%Z.
Proof.
  intros Hlen Hn.
  assert (T : int16_small s = true).
  { destruct s as [|c1 [|c2 [|c3 s]]]; cbn in Hlen; try lia.
    - reflexivity.
    - pose proof int16_small_one as T. rewrite forallb_forall in T.
      apply T, in_all_ascii.
    - pose proof int16_small_two as T. rewrite forallb_forall in T.
      specialize (T c1 (in_all_ascii c1)). rewrite forallb_forall in T.
      apply T, in_all_ascii. }
  unfold int16_small in T. rewrite Hn in T.
  apply andb_true_iff in T. lia.
Qed.

Lemma signed_channel_table :
  forallb (fun k => signed_unit_intervalb
                      (Py.truediv (Z.of_nat k - 255) 255)) (seq 0 511)
  = true.
Proof. vm_compute. reflexivity. Qed.

Lemma signed_channel (n : Z) :
  (-255 <= n <= 255)%Z -> signed_unit_interval (Py.truediv n 255).
Proof.
  intros Hn. pose proof signed_channel_table as T.
  rewrite forallb_forall in T. specialize (T (Z.to_nat (n + 255))).
  rewrite Z2Nat.id in T by lia.
  replace (n + 255 - 255)%Z with n in T by lia.
  unfold signed_unit_intervalb in T.
  apply andb_true_iff. apply T. apply in_seq. lia.
Qed.

Lemma channel_signed (s : string) (i : nat) (x : float) :
  channel s i = Some x -> signed_unit_interval x.
Proof.
  unfold channel, Py.slice. replace (i + 2 - i) with 2 by lia.
  destruct (Py.int16 _) as [n|] eqn:E; [|discriminate].
  intros H. injection H as <-. apply signed_channel.
  apply (int16_short _ _ (substring_length _ _ _) E).
Qed.

(** X4. Whatever string it is given, a tuple [hex_to_rgba] returns has its
    four components between -1 and 1: each is an integer read from at most
    two characters, divided by 255. *)
Theorem hex_to_rgba_components_bounded (hex_color_string : string)
    (c : rgba) :
  hex_to_rgba hex_color_string = Some c ->
  signed_unit_interval (red c) /\ signed_unit_interval (green c) /\
  signed_unit_interval (blue c) /\ signed_unit_interval (alpha c).
Proof.
  unfold hex_to_rgba.
  destruct (channel _ 0) as [r|] eqn:Er; [|discriminate].
  destruct (channel _ 2) as [g|] eqn:Eg; [|discriminate].
  destruct (channel _ 4) as [b|] eqn:Eb; [|discriminate].
  destruct (channel _ 6) as [a|] eqn:Ea; [|discriminate].
  intros H. injection H as <-. cbn [red green blue alpha fst snd].
  repeat split; eapply channel_signed; eassumption.
Qed.

Lemma hex_to_rgba_components_bounded_witness :
  exists c, hex_to_rgba "#-f+f 9a " = Some c /\
            signed_unit_interval (red c) /\ PrimFloat.ltb (red c) 0 = true.
Proof.
  eexists. split; [vm_compute; reflexivity|]. split.
  - apply (hex_to_rgba_components_bounded "#-f+f 9a " _).
    vm_compute. reflexivity.
  - vm_compute. reflexivity.
Defined.

Lemma byte_channels_table :
  forallb (fun n => forallb (byte_channels_differ n) (seq 0 256)) (seq 0 256)
  = true.
Proof. vm_compute. reflexivity. Qed.

Lemma byte_channel_eqb (n m : Z) :
  (0 <= n <= 255)%Z -> (0 <= m <= 255)%Z ->
  PrimFloat.eqb (Py.truediv n 255) (Py.truediv m 255) = Z.eqb n m.
Proof.
  intros Hn Hm. pose proof byte_channels_table as T.
  rewrite forallb_forall in T.
  assert (In (Z.to_nat n) (seq 0 256)) as Hin by (apply in_seq; lia).
  assert (In (Z.to_nat m) (seq 0 256)) as Him by (apply in_seq; lia).
  specialize (T (Z.to_nat n) Hin). rewrite forallb_forall in T.
  specialize (T (Z.to_nat m) Him). unfold byte_channels_differ in T.
  rewrite !Z2Nat.id in T by lia.
  apply Bool.eqb_prop in T. rewrite T.
  destruct (Z.eqb_spec n m) as [->|Hne].
  - apply Nat.eqb_refl.
  - apply Nat.eqb_neq. intros E. apply Hne. apply Z2Nat.inj; lia.
Qed.

Lemma byte_channel_injective (n m : Z) :
  (0 <= n <= 255)%Z -> (0 <= m <= 255)%Z ->
  Py.truediv n 255 = Py.truediv m 255 -> n = m.
Proof.
  intros Hn Hm H. pose proof (byte_channel_eqb n m Hn Hm) as E.
  rewrite H in E. rewrite (byte_channel_eqb m m Hm Hm) in E.
  rewrite Z.eqb_refl in E. symmetry in E. now apply Z.eqb_eq in E.
Qed.

(** X5. The conversion loses nothing: two strings of eight hexadecimal
    digits give the same tuple exactly when their digits have the same
    values (so they differ at most in the case of the letters). *)
Theorem hex_to_rgba_injective
    (c1 c2 c3 c4 c5 c6 c7 c8 d1 d2 d3 d4 d5 d6 d7 d8 : ascii)
    (v1 v2 v3 v4 v5 v6 v7 v8 u1 u2 u3 u4 u5 u6 u7 u8 : Z) :
  Py.digit16 c1 = Some v1 -> Py.digit16 c2 = Some v2 ->
  Py.digit16 c3 = Some v3 -> Py.digit16 c4 = Some v4 ->
  Py.digit16 c5 = Some v5 -> Py.digit16 c6 = Some v6 ->
  Py.digit16 c7 = Some v7 -> Py.digit16 c8 = Some v8 ->
  Py.digit16 d1 = Some u1 -> Py.digit16 d2 = Some u2 ->
  Py.digit16 d3 = Some u3 -> Py.digit16 d4 = Some u4 ->
  Py.digit16 d5 = Some u5 -> Py.digit16 d6 = Some u6 ->
  Py.digit16 d7 = Some u7 -> Py.digit16 d8 = Some u8 ->
  hex_to_rgba (hex8 c1 c2 c3 c4 c5 c6 c7 c8)
  = hex_to_rgba (hex8 d1 d2 d3 d4 d5 d6 d7 d8)
  <-> (v1 = u1 /\ v2 = u2 /\ v3 = u3 /\ v4 = u4 /\
       v5 = u5 /\ v6 = u6 /\ v7 = u7 /\ v8 = u8).
Proof.
  intros C1 C2 C3 C4 C5 C6 C7 C8 D1 D2 D3 D4 D5 D6 D7 D8.
  pose proof (hex_to_rgba_digits c1 c2 c3 c4 c5 c6 c7 c8 _ _ _ _ _ _ _ _
                false C1 C2 C3 C4 C5 C6 C7 C8) as Hc.
  pose proof (hex_to_rgba_digits d1 d2 d3 d4 d5 d6 d7 d8 _ _ _ _ _ _ _ _
                false D1 D2 D3 D4 D5 D6 D7 D8) as Hd.
  cbn [append] in Hc, Hd. rewrite Hc, Hd.
  pose proof (digit16_range _ _ C1). pose proof (digit16_range _ _ C2).
  pose proof (digit16_range _ _ C3). pose proof (digit16_range _ _ C4).
  pose proof (digit16_range _ _ C5). pose proof (digit16_range _ _ C6).
  pose proof (digit16_range _ _ C7). pose proof (digit16_range _ _ C8).
  pose proof (digit16_range _ _ D1). pose proof (digit16_range _ _ D2).
  pose proof (digit16_range _ _ D3). pose proof (digit16_range _ _ D4).
  pose proof (digit16_range _ _ D5). pose proof (digit16_range _ _ D6).
  pose proof (digit16_range _ _ D7). pose proof (digit16_range _ _ D8).
  split.
  - intros E. injection E as E1 E2 E3 E4.
    apply byte_channel_injective in E1; [|unfold pair_value; lia..].
    apply byte_channel_injective in E2; [|unfold pair_value; lia..].
    apply byte_channel_injective in E3; [|unfold pair_value; lia..].
    apply byte_channel_injective in E4; [|unfold pair_value; lia..].
    unfold pair_value in *. lia.
  - intros (-> & -> & -> & -> & -> & -> & -> & ->). reflexivity.
Qed.

Lemma hex_to_rgba_injective_witness :
  hex_to_rgba "1e90ffFF" = hex_to_rgba "1E90FFff".
Proof.
  apply (hex_to_rgba_injective "1" "e" "9" "0" "f" "f" "F" "F"
           "1" "E" "9" "0" "F" "F" "f" "f"
           1 14 9 0 15 15 15 15 1 14 9 0 15 15 15 15);
    try reflexivity.
  repeat split; reflexivity.
Defined.


(** * Further properties of the batch *)

Ltac unfold_calls :=
  unfold convert_to_png, base_cmap, read_file, total_bounds, subplots,
    to_crs, plot, savefig, lib, bind, ret, str, of_option.

Ltac step_world :=
  repeat first
    [ rewrite add_layer_last
    | rewrite snoc_not_nil
    | rewrite last_snoc
    | progress unfold ret
    | progress cbn [stdout figures saved figsize layers app fst snd] ].

(** The loop over [ps] in any run: it writes the files of the first [k]
    paths, in order, and either [k] is all of them and it returns, or a
    library call raised while rendering the next one. *)
Lemma render_all_any (raises : call -> bool) (xs ys resolution : argval)
    (amsr_palette : bool) (column_name : string) (ps : list string)
    (w : world) :
  let r := render_all raises xs ys resolution amsr_palette column_name ps w in
  exists k,
    k <= List.length ps /\
    stdout (snd r) = stdout w /\
    map png_path (saved (snd r))
    = map png_path (saved w) ++
      map (fun p => (p ++ ".png")%string) (firstn k ps) /\
    ((fst r = inl tt /\ k = List.length ps) \/
     (exists c, fst r = inr (LibraryError c) /\ raises c = true /\
                k < List.length ps)).
Proof.
  cbv zeta. revert w. induction ps as [|p ps IH]; intros w.
  - exists 0. cbn. rewrite app_nil_r. repeat split; auto.
  - unfold render_all. cbn [for_each]. unfold bind.
    fold (render_all raises xs ys resolution amsr_palette column_name ps).
    destruct amsr2_colormap_value_exists as [cm Hcm].
    pose proof (convert_to_png_any raises p xs ys resolution amsr_palette
                  column_name cm w Hcm) as A. cbv zeta in A.
    destruct (convert_to_png raises p xs ys resolution amsr_palette
                column_name w) as [r1 w1].
    cbn [fst snd] in A.
    destruct A as [[-> ->] | (c & -> & Hc & Hout & Hsaved & _)].
    + destruct (IH (rendered p xs ys resolution
                      (plotted_layers p amsr_palette column_name cm) w))
        as (k & Hk & Hs & Hp & Hr).
      exists (S k). cbn [List.length firstn map].
      split; [lia|]. split; [exact Hs|]. split.
      * rewrite Hp. cbn [rendered saved]. rewrite map_app.
        cbn [map png_path]. now rewrite <- app_assoc.
      * destruct Hr as [[Hr ->] | (c & Hr & Hc & Hlt)].
        -- left. split; [exact Hr | reflexivity].
        -- right. exists c. repeat split; [exact Hr | exact Hc | lia].
    + exists 0. cbn [firstn map List.length fst snd].
      split; [lia|]. split; [exact Hout|]. split.
      * rewrite Hsaved. now rewrite app_nil_r.
      * right. exists c. repeat split; [exact Hc | lia].
Qed.

(** X6. Whatever happens while rendering, what [main] prints is exactly one
    line per input path, in the order given: [Including filename: ...] for a
    file, the warning otherwise.  Rendering prints nothing, and all the
    lines are printed before the first file is rendered. *)
Theorem output_is_one_line_per_input (raises : call -> bool)
    (isfile : string -> bool) (abspath : string -> string)
    (args : Namespace) (w : world) :
  stdout (after (run raises isfile abspath args) w)
  = stdout w ++
    map (fun p => if isfile p then ("Including filename: " ++ p)%string
                  else ("Filename " ++ p ++
                        " is not a file (or doesn't exist): Ignoring")%string)
      (files args).
Proof.
  destruct args as [xs ys resolution amsr_palette column_name fs].
  unfold after. rewrite run_spec.
  destruct (render_all_any raises xs ys resolution amsr_palette column_name
              (map abspath (filter isfile fs))
              (printed (map (notice isfile) fs) w))
    as (k & _ & Hs & _).
  cbn [files]. rewrite Hs. reflexivity.
Qed.

(** X7. In any run of the batch the PNG files are written in input order
    and without gaps: the files written are those of the first [k]
    surviving inputs.  Either the batch returns and [k] is all of them, or a
    library call raised, the batch ends with that exception, and the input
    being rendered and all later ones have no PNG. *)
Theorem batch_writes_a_prefix (raises : call -> bool)
    (isfile : string -> bool) (abspath : string -> string)
    (args : Namespace) (w : world) :
  let survivors := map abspath (filter isfile (files args)) in
  let r := run raises isfile abspath args in
  exists k,
    k <= List.length survivors /\
    map png_path (saved (after r w))
    = map png_path (saved w) ++
      map (fun p => (p ++ ".png")%string) (firstn k survivors) /\
    ((outcome r w = inl tt /\ k = List.length survivors) \/
     (exists c, outcome r w = inr (LibraryError c) /\ raises c = true /\
                k < List.length survivors)).
Proof.
  destruct args as [xs ys resolution amsr_palette column_name fs].
  cbv zeta. unfold after, outcome. rewrite run_spec. cbn [files].
  destruct (render_all_any raises xs ys resolution amsr_palette column_name
              (map abspath (filter isfile fs))
              (printed (map (notice isfile) fs) w))
    as (k & Hk & _ & Hp & Hr).
  exists k. split; [exact Hk|]. split; [exact Hp | exact Hr].
Qed.

(** A run of [convert_to_png] on a path other than [bad], when the only
    call that raises is the reading of [bad]. *)
Lemma convert_to_png_returns_beside (raises : call -> bool) (bad : string)
    (geojson_filepath : string) (xscale yscale dpi : argval)
    (amsr_palette : bool) (criteria : string) (cm : ListedColormap)
    (w : world) :
  (forall c, c <> CReadFile bad -> raises c = false) ->
  geojson_filepath <> bad ->
  create_amsr2_colormap = Some cm ->
  convert_to_png raises geojson_filepath xscale yscale dpi amsr_palette
    criteria w
  = (inl tt,
     rendered geojson_filepath xscale yscale dpi
       (plotted_layers geojson_filepath amsr_palette criteria cm) w).
Proof.
  intros Hlib Hne Hcm. destruct w as [out figs sv].
  unfold rendered, plotted_layers. unfold_calls. rewrite Hcm.
  destruct (String.eqb criteria "fuel"), amsr_palette;
    repeat first [ rewrite Hlib by congruence | progress step_world ];
    reflexivity.
Qed.

Lemma render_all_returns_beside (raises : call -> bool) (bad : string)
    (xs ys resolution : argval) (amsr_palette : bool) (column_name : string)
    (cm : ListedColormap) (ps : list string) (w : world) :
  (forall c, c <> CReadFile bad -> raises c = false) ->
  ~ In bad ps ->
  create_amsr2_colormap = Some cm ->
  render_all raises xs ys resolution amsr_palette column_name ps w
  = (inl tt,
     fold_left (fun w' p =>
                  rendered p xs ys resolution
                    (plotted_layers p amsr_palette column_name cm) w')
       ps w).
Proof.
  intros Hlib Hnot Hcm. revert w.
  induction ps as [|p ps IH]; intros w; [reflexivity|].
  unfold render_all. cbn [for_each fold_left]. unfold bind.
  rewrite (convert_to_png_returns_beside raises bad p xs ys resolution
             amsr_palette column_name cm w Hlib)
    by (auto; intros E; apply Hnot; now left).
  apply IH. intros Hin. apply Hnot. now right.
Qed.

Lemma rendered_fold_paths (xs ys resolution : argval) (amsr_palette : bool)
    (column_name : string) (cm : ListedColormap) (ps : list string)
    (w : world) :
  let w' := fold_left (fun w' p =>
                         rendered p xs ys resolution
                           (plotted_layers p amsr_palette column_name cm) w')
              ps w in
  stdout w' = stdout w /\
  saved w'
  = saved w ++
    map (fun p =>
           {| png_path := p ++ ".png"; png_dpi := resolution;
              png_figure :=
                {| figsize := Some (xs, ys);
                   layers := plotted_layers p amsr_palette column_name cm |}
           |}) ps /\
  figures w'
  = figures w ++
    map (fun p =>
           {| figsize := Some (xs, ys);
              layers := plotted_layers p amsr_palette column_name cm |}) ps.
Proof.
  cbv zeta. revert w. induction ps as [|p ps IH]; intros w; cbn [fold_left map].
  - now rewrite !app_nil_r.
  - destruct (IH (rendered p xs ys resolution
                    (plotted_layers p amsr_palette column_name cm) w))
      as (H1 & H2 & H3).
    rewrite H1, H2, H3. cbn [rendered stdout saved figures].
    now rewrite <- !app_assoc.
Qed.

(** When [read_file] raises, nothing else is called and the state is
    left as it was. *)
Lemma convert_to_png_unreadable (raises : call -> bool)
    (geojson_filepath : string) (xscale yscale dpi : argval)
    (amsr_palette : bool) (criteria : string) (w : world) :
  raises (CReadFile geojson_filepath) = true ->
  convert_to_png raises geojson_filepath xscale yscale dpi amsr_palette
    criteria w
  = (inr (LibraryError (CReadFile geojson_filepath)), w).
Proof.
  intros H. unfold convert_to_png, read_file, lib, bind. now rewrite H.
Qed.

(** X8. A surviving file that geopandas cannot read aborts the batch where
    it stands: when reading [bad] is the one call that raises and [bad]
    first occurs after the paths [before], the batch ends with the exception
    of that call, the files of [before] are written, and neither [bad] nor
    any later input gets a PNG or a figure. *)
Theorem unreadable_file_aborts_the_batch (raises : call -> bool)
    (isfile : string -> bool) (abspath : string -> string)
    (args : Namespace) (bad : string) (before later : list string)
    (w : world) :
  raises (CReadFile bad) = true ->
  (forall c, c <> CReadFile bad -> raises c = false) ->
  map abspath (filter isfile (files args)) = before ++ bad :: later ->
  ~ In bad before ->
  let r := run raises isfile abspath args in
  outcome r w = inr (LibraryError (CReadFile bad)) /\
  map png_path (saved (after r w))
  = map png_path (saved w) ++ map (fun p => (p ++ ".png")%string) before /\
  List.length (figures (after r w))
  = List.length (figures w) + List.length before.
Proof.
  destruct args as [xs ys resolution amsr_palette column_name fs].
  cbn [files]. intros Hbad Hlib Hsplit Hnot. cbv zeta.
  unfold outcome, after. rewrite run_spec, Hsplit.
  destruct amsr2_colormap_value_exists as [cm Hcm].
  assert (S : forall l1 l2 w0,
             render_all raises xs ys resolution amsr_palette column_name
               (l1 ++ l2) w0
             = match render_all raises xs ys resolution amsr_palette
                       column_name l1 w0 with
               | (inl _, w1) =>
                   render_all raises xs ys resolution amsr_palette
                     column_name l2 w1
               | (inr e, w1) => (inr e, w1)
               end).
  { induction l1 as [|p l1 IH]; intros l2 w0; [reflexivity|].
    unfold render_all in *. cbn [app for_each]. unfold bind.
    destruct (convert_to_png _ _ _ _ _ _ _ w0) as [[u|e] w1];
      [apply IH | reflexivity]. }
  rewrite S.
  rewrite (render_all_returns_beside raises bad xs ys resolution amsr_palette
             column_name cm before _ Hlib Hnot Hcm).
  unfold render_all. cbn [for_each]. unfold bind.
  rewrite (convert_to_png_unreadable raises bad xs ys resolution
             amsr_palette column_name _ Hbad).
  cbn [fst snd].
  destruct (rendered_fold_paths xs ys resolution amsr_palette column_name cm
              before (printed (map (notice isfile) fs) w))
    as (_ & H2 & H3).
  rewrite H2, H3. cbn [printed saved figures].
  rewrite map_app, map_map, !length_app, length_map. cbn [png_path].
  repeat split; reflexivity.
Qed.

Lemma unreadable_file_aborts_the_batch_witness :
  outcome (run (fun c => match c with
                         | CReadFile path =>
                             String.eqb path "/cwd/broken.json"
                         | _ => false
                         end)
             sample_isfile sample_abspath
             {| xscale := AInt 40; yscale := AInt 30; dpi := AInt 180;
                palette := false; criteria := "SIC";
                files := ["a.json"; "broken.json"; "b.json"] |})
    empty_world
  = inr (LibraryError (CReadFile "/cwd/broken.json")).
Proof.
  refine (proj1 (unreadable_file_aborts_the_batch _ sample_isfile
                   sample_abspath _ "/cwd/broken.json" ["/cwd/a.json"]
                   ["/cwd/b.json"] empty_world _ _ _ _)).
  - reflexivity.
  - intros c Hc. destruct c as [path| | | | |]; try reflexivity.
    apply String.eqb_neq. congruence.
  - reflexivity.
  - cbn. intros [E|[]]. discriminate E.
Defined.


Lemma render_all_closed (raises : call -> bool) (xs ys resolution : argval)
    (amsr_palette : bool) (column_name : string) (cm : ListedColormap)
    (ps : list string) (w : world) :
  library_returns raises ->
  create_amsr2_colormap = Some cm ->
  render_all raises xs ys resolution amsr_palette column_name ps w
  = (inl tt,
     fold_left (fun w' p =>
                  rendered p xs ys resolution
                    (plotted_layers p amsr_palette column_name cm) w')
       ps w).
Proof.
  intros Hlib Hcm. revert w.
  induction ps as [|p ps IH]; intros w; [reflexivity|].
  unfold render_all. cbn [for_each fold_left]. unfold bind.
  rewrite (convert_to_png_returns raises p xs ys resolution amsr_palette
             column_name cm w Hlib Hcm).
  apply IH.
Qed.

Lemma Forall2_map_right {A B : Type} (R : A -> B -> Prop) (f : A -> B)
    (l : list A) :
  (forall x, R x (f x)) -> Forall2 R l (map f l).
Proof. intros H. induction l; cbn; constructor; auto. Qed.

Lemma Forall2_map_left {A B C : Type} (R : B -> C -> Prop) (f : A -> B)
    (l : list A) (l' : list C) :
  Forall2 (fun x y => R (f x) y) l l' -> Forall2 R (map f l) l'.
Proof. induction 1; cbn; constructor; auto. Qed.

Lemma plotted_layers_reprojected (p : string) (amsr_palette : bool)
    (column_name : string) (cm : ListedColormap) :
  Forall (fun l => layer_data l = Reprojected (FileFrame p) 4326)
    (plotted_layers p amsr_palette column_name cm).
Proof.
  unfold plotted_layers.
  destruct (String.eqb column_name "fuel"); repeat constructor.
Qed.

(** X9. When the library calls return, the batch leaves one figure per
    surviving input, none of them closed, and each PNG is written from the
    figure of its own input: its path is that input's path with [.png]
    appended, its size and DPI are those of the command line, and every
    layer on it is drawn from that input's data, so nothing plotted for one
    input shows on the image of another. *)
Theorem each_png_holds_its_own_input (raises : call -> bool)
    (isfile : string -> bool) (abspath : string -> string)
    (args : Namespace) (w : world) :
  library_returns raises ->
  let survivors := map abspath (filter isfile (files args)) in
  let r := run raises isfile abspath args in
  exists written,
    saved (after r w) = saved w ++ written /\
    figures (after r w) = figures w ++ map png_figure written /\
    Forall2
      (fun p f =>
         png_path f = (p ++ ".png")%string /\
         png_dpi f = dpi args /\
         figsize (png_figure f) = Some (xscale args, yscale args) /\
         Forall (fun l => layer_data l = Reprojected (FileFrame p) 4326)
           (layers (png_figure f)))
      survivors written.
Proof.
  destruct args as [xs ys resolution amsr_palette column_name fs].
  intros Hlib. cbv zeta. cbn [files dpi xscale yscale]. unfold after.
  rewrite run_spec.
  destruct amsr2_colormap_value_exists as [cm Hcm].
  rewrite (render_all_closed raises xs ys resolution amsr_palette
             column_name cm _ _ Hlib Hcm).
  cbn [snd].
  destruct (rendered_fold_paths xs ys resolution amsr_palette column_name cm
              (map abspath (filter isfile fs))
              (printed (map (notice isfile) fs) w))
    as (_ & H2 & H3).
  eexists. split; [rewrite H2; reflexivity|]. split.
  - rewrite H3. cbn [printed figures]. rewrite !map_map. reflexivity.
  - apply Forall2_map_right. intros p. cbn [png_path png_dpi png_figure
                                              figsize layers].
    repeat split. apply plotted_layers_reprojected.
Qed.

Lemma each_png_holds_its_own_input_witness :
  exists f1 f2,
    saved (after (run no_raise sample_isfile sample_abspath
                    {| xscale := AInt 40; yscale := AInt 30;
                       dpi := AInt 180; palette := true;
                       criteria := "fuel";
                       files := ["a.json"; "/data/b.json"] |}) empty_world)
    = [f1; f2] /\
    png_path f1 = "/cwd/a.json.png" /\ png_path f2 = "/data/b.json.png" /\
    Forall (fun l => layer_data l = Reprojected (FileFrame "/data/b.json") 4326)
      (layers (png_figure f2)).
Proof.
  destruct (each_png_holds_its_own_input no_raise sample_isfile
              sample_abspath
              {| xscale := AInt 40; yscale := AInt 30; dpi := AInt 180;
                 palette := true; criteria := "fuel";
                 files := ["a.json"; "/data/b.json"] |} empty_world
              no_raise_returns)
    as (written & Hs & _ & HF).
  cbv zeta in HF. cbn in HF.
  inversion HF as [|p1 f1 ps1 fs1 (P1 & _ & _ & _) HF1]; subst.
  inversion HF1 as [|p2 f2 ps2 fs2 (P2 & _ & _ & L2) HF2]; subst.
  inversion HF2; subst.
  exists f1, f2. repeat split; assumption.
Defined.

Lemma filter_none (isfile : string -> bool) (fs : list string) :
  (forall p, In p fs -> isfile p = false) -> filter isfile fs = [].
Proof.
  induction fs as [|p fs IH]; intros H; cbn; [reflexivity|].
  rewrite (H p (or_introl eq_refl)). apply IH. intros q Hq. apply H. now right.
Qed.

(** X10. When none of the inputs is an existing file, [main]'s loop has
    nothing to do: it prints one warning per input and returns normally,
    without any call to geopandas or matplotlib, so whatever the library
    would do, no figure is made and no file is written. *)
Theorem no_input_exists (raises : call -> bool) (isfile : string -> bool)
    (abspath : string -> string) (args : Namespace) (w : world) :
  (forall p, In p (files args) -> isfile p = false) ->
  run raises isfile abspath args w
  = (inl tt,
     {| stdout := stdout w ++
                  map (fun p => ("Filename " ++ p ++
                         " is not a file (or doesn't exist): Ignoring")%string)
                    (files args);
        figures := figures w;
        saved := saved w |}).
Proof.
  destruct args as [xs ys resolution amsr_palette column_name fs].
  cbn [files]. intros H. rewrite run_spec, (filter_none _ _ H).
  cbn [map render_all for_each]. unfold ret, printed. f_equal. f_equal.
  f_equal. apply map_ext_in. intros p Hp. unfold notice.
  now rewrite (H p Hp).
Qed.

Lemma no_input_exists_witness :
  outcome (run (fun _ => true) sample_isfile sample_abspath
             {| xscale := AInt 40; yscale := AInt 30; dpi := AInt 180;
                palette := false; criteria := "SIC";
                files := ["missing.json"; "missing.json"] |}) empty_world
  = inl tt.
Proof.
  unfold outcome.
  rewrite (no_input_exists (fun _ => true) sample_isfile sample_abspath
             {| xscale := AInt 40; yscale := AInt 30; dpi := AInt 180;
                palette := false; criteria := "SIC";
                files := ["missing.json"; "missing.json"] |} empty_world).
  - reflexivity.
  - intros p [<- | [<- | []]]; reflexivity.
Defined.

(** Every library call of a complete run of [convert_to_png], in the order
    the function makes them, is among: the read, the bounds, the new figure,
    a reprojection and a plot per layer, and the save. *)
Lemma convert_to_png_returns_iff (raises : call -> bool)
    (geojson_filepath : string) (xscale yscale dpi : argval)
    (amsr_palette : bool) (criteria : string) (cm : ListedColormap)
    (w : world) :
  create_amsr2_colormap = Some cm ->
  let df := FileFrame geojson_filepath in
  let ax := List.length (figures w) in
  let calls :=
    [CReadFile geojson_filepath; CTotalBounds df;
     CSubplots (xscale, yscale)] ++
    flat_map (fun l => [CToCrs df 4326;
                        CPlot (layer_data l) (layer_kwargs l) ax])
      (plotted_layers geojson_filepath amsr_palette criteria cm) ++
    [CSavefig (geojson_filepath ++ ".png") dpi] in
  outcome (convert_to_png raises geojson_filepath xscale yscale dpi
             amsr_palette criteria) w = inl tt
  <-> forallb (fun c => negb (raises c)) calls = true.
Proof.
  intros Hcm. cbv zeta. destruct w as [out figs sv].
  unfold outcome, plotted_layers, inaccessible_layer, main_layer, land_layer,
    reprojected.
  unfold_calls. rewrite Hcm. cbn [figures].
  destruct (String.eqb criteria "fuel"), amsr_palette;
    cbn [app flat_map forallb layer_data layer_kwargs];
    repeat first
      [ progress step_world
      | match goal with
        | |- context [raises ?c] =>
            destruct (raises c) eqn:?;
            cbn [negb andb fst snd];
            [ split; intros; discriminate | ]
        end ];
    split; reflexivity.
Qed.

(** X11. [convert_to_png] returns normally exactly when none of its library
    calls raises.  In particular every input must have a [land] column: if
    plotting it raises, the call ends with an exception (and, by the
    properties above, with no PNG). *)
Theorem convert_to_png_needs_every_call (raises : call -> bool)
    (geojson_filepath : string) (xscale yscale dpi : argval)
    (amsr_palette : bool) (criteria : string) (w : world) :
  let df := FileFrame geojson_filepath in
  let ax := List.length (figures w) in
  let run_one := convert_to_png raises geojson_filepath xscale yscale dpi
                   amsr_palette criteria in
  exists cm,
    create_amsr2_colormap = Some cm /\
    (outcome run_one w = inl tt
     <-> forallb (fun c => negb (raises c))
           ([CReadFile geojson_filepath; CTotalBounds df;
             CSubplots (xscale, yscale)] ++
            flat_map (fun l => [CToCrs df 4326;
                                CPlot (layer_data l) (layer_kwargs l) ax])
              (plotted_layers geojson_filepath amsr_palette criteria cm) ++
            [CSavefig (geojson_filepath ++ ".png") dpi]) = true) /\
    (raises (CPlot (Reprojected df 4326)
               {| column := "land"; edgecolor := Some "brown";
                  linewidth := Some 0.5%float; cmap := CmapName "copper" |}
               ax) = true ->
     outcome run_one w <> inl tt /\ saved (after run_one w) = saved w).
Proof.
  cbv zeta. destruct amsr2_colormap_value_exists as [cm Hcm].
  exists cm. split; [exact Hcm|].
  pose proof (convert_to_png_returns_iff raises geojson_filepath xscale
                yscale dpi amsr_palette criteria cm w Hcm) as I.
  cbv zeta in I. split; [exact I|].
  intros Hland.
  assert (N : outcome (convert_to_png raises geojson_filepath xscale yscale
                         dpi amsr_palette criteria) w <> inl tt).
  { intros R. apply I in R. rewrite forallb_forall in R.
    specialize (R (CPlot (Reprojected (FileFrame geojson_filepath) 4326)
                     {| column := "land"; edgecolor := Some "brown";
                        linewidth := Some 0.5%float;
                        cmap := CmapName "copper" |}
                     (List.length (figures w)))).
    rewrite Hland in R. cbn [negb] in R.
    assert (false = true) as F; [|discriminate F].
    apply R. apply in_or_app. right. apply in_or_app. left.
    apply in_flat_map. exists (land_layer geojson_filepath). split.
    - unfold plotted_layers. apply in_or_app. right. right. now left.
    - right. now left. }
  split; [exact N|].
  unfold outcome, after in *.
  destruct (convert_to_png_any raises geojson_filepath xscale yscale dpi
              amsr_palette criteria cm w Hcm)
    as [[R _] | (c & _ & _ & _ & S & _)].
  - now contradiction N.
  - exact S.
Qed.

Lemma convert_to_png_needs_every_call_witness :
  outcome (convert_to_png
             (fun c => match c with
                       | CPlot _ {| column := "land" |} _ => true
                       | _ => false
                       end)
             "/data/mesh.json" (AInt 40) (AInt 30) (AInt 180) false "SIC")
    empty_world <> inl tt.
Proof.
  destruct (convert_to_png_needs_every_call
              (fun c => match c with
                        | CPlot _ {| column := "land" |} _ => true
                        | _ => false
                        end)
              "/data/mesh.json" (AInt 40) (AInt 30) (AInt 180) false "SIC"
              empty_world) as (cm & _ & _ & H).
  exact (proj1 (H eq_refl)).
Defined.


(** * Further properties of the command line *)

Lemma dest_eq_dec (a b : dest) : {a = b} + {a <> b}.
Proof. decide equality. Qed.

(** One step of [consume]. *)
Lemma consume_cons (word : string) (rest : list string) (ns : Namespace)
    (pos : positional_state) (extras : list string) :
  consume (word :: rest) ns pos extras
  = match classify word with
    | WOption o =>
        match opt_action o with
        | store =>
            match rest with
            | value :: rest' =>
                match classify value with
                | WArgument =>
                    consume rest' (store_value (opt_dest o) value ns)
                      (close pos) extras
                | _ => Usage (ExpectedOneArgument o)
                end
            | [] => Usage (ExpectedOneArgument o)
            end
        | store_true =>
            consume rest (store_const_true (opt_dest o) ns) (close pos)
              extras
        end
    | WArgument =>
        match pos with
        | Unseen => consume rest (set_files [word] ns) Collecting extras
        | Collecting =>
            consume rest (set_files (files ns ++ [word]) ns) Collecting
              extras
        | Filled => consume rest ns Filled (extras ++ [word])
        end
    | WOther => Unmodelled
    end.
Proof. reflexivity. Qed.

(** An option string of a [store] destination is read as that option. *)
Lemma flag_is_store_option (d : dest) (word : string) :
  d <> d_palette ->
  In word (strings_of d) ->
  exists o, classify word = WOption o /\ opt_dest o = d /\
            opt_action o = store.
Proof.
  intros Hd Hin. destruct d; cbn [strings_of In] in Hin;
    try (now contradiction Hd);
    destruct Hin as [<- | [<- | []]]; eexists; repeat split.
Qed.

Section StoredStrings.

(** A field that the [store] options of [d] write, and nothing else. *)
Context (proj : Namespace -> argval) (d : dest).
Hypothesis not_palette : d <> d_palette.
Hypothesis store_mine :
  forall v ns, proj (store_value d v ns) = AStr v.
Hypothesis store_other :
  forall d' v ns, d' <> d -> proj (store_value d' v ns) = proj ns.
Hypothesis store_true_any :
  forall d' ns, proj (store_const_true d' ns) = proj ns.
Hypothesis files_any :
  forall v ns, proj (set_files v ns) = proj ns.

Lemma not_flag_of_argument (word : string) :
  classify word = WArgument -> ~ In word (strings_of d).
Proof.
  intros Hc Hin.
  destruct (flag_is_store_option d word not_palette Hin) as (o & Ho & _).
  congruence.
Qed.

Lemma consume_stores (all words : list string) :
  forall ns pos extras args,
    incl words all ->
    consume words ns pos extras = Parsed args ->
    flagged proj d all words ns ->
    exists v, In v all /\ proj args = AStr v.
Proof.
  induction words as [| a | a b l IHl IHbl] using list_ind_pairs;
    intros ns pos extras args Hincl H F.
  - cbn [consume] in H. destruct F as [(word & [] & _) | F].
    destruct pos, extras; try discriminate; now injection H as <-.
  - cbn [consume] in H.
    destruct (classify a) as [o| |] eqn:Ca; try discriminate.
    + destruct (opt_action o) eqn:Ao; try discriminate.
      destruct F as [(word & [<- | []] & Hw) | (v & Hv & Hp)].
      * destruct (flag_is_store_option d a not_palette Hw)
          as (o' & Ho' & _ & Hs). congruence.
      * exists v. split; [exact Hv|].
        destruct (close pos), extras; try discriminate;
          injection H as <-; now rewrite store_true_any.
    + destruct F as [(word & [<- | []] & Hw) | (v & Hv & Hp)].
      * now apply not_flag_of_argument in Hw.
      * exists v. split; [exact Hv|].
        destruct pos, extras; try discriminate; injection H as <-;
          now rewrite files_any.
  - assert (Hincl1 : incl (b :: l) all)
      by (intros x Hx; apply Hincl; now right).
    assert (Hincl2 : incl l all)
      by (intros x Hx; apply Hincl1; now right).
    rewrite consume_cons in H.
    destruct (classify a) as [o| |] eqn:Ca; try discriminate.
    + destruct (opt_action o) eqn:Ao.
      * destruct (classify b) eqn:Cb; try discriminate.
        apply (IHl _ _ _ _ Hincl2 H).
        destruct (dest_eq_dec (opt_dest o) d) as [Hd | Hd].
        -- right. exists b. split; [apply Hincl; right; now left|].
           rewrite Hd. apply store_mine.
        -- destruct F as [(word & [<- | [<- | Hl]] & Hw) | (v & Hv & Hp)].
           ++ destruct (flag_is_store_option d a not_palette Hw)
                as (o' & Ho' & Hd' & _). congruence.
           ++ now apply not_flag_of_argument in Hw.
           ++ left. now exists word.
           ++ right. exists v. split; [exact Hv|].
              now rewrite store_other.
      * apply (IHbl _ _ _ _ Hincl1 H).
        destruct F as [(word & [<- | Hl] & Hw) | (v & Hv & Hp)].
        -- destruct (flag_is_store_option d a not_palette Hw)
             as (o' & Ho' & _ & Hs). congruence.
        -- left. now exists word.
        -- right. exists v. split; [exact Hv|]. now rewrite store_true_any.
    + assert (F' : forall ns',
                 proj ns' = proj ns -> flagged proj d all (b :: l) ns').
      { intros ns' E.
        destruct F as [(word & [<- | Hl] & Hw) | (v & Hv & Hp)].
        - now apply not_flag_of_argument in Hw.
        - left. now exists word.
        - right. exists v. split; [exact Hv|]. now rewrite E. }
      destruct pos; apply (IHbl _ _ _ _ Hincl1 H); apply F';
        try apply files_any; reflexivity.
Qed.

Lemma parse_args_stores (argv : list string) (args : Namespace) :
  parse_args argv = Parsed args ->
  (exists word, In word argv /\ In word (strings_of d)) ->
  exists v, In v argv /\ proj args = AStr v.
Proof.
  unfold parse_args. intros H F.
  destruct (forallb in_fragment argv); [|discriminate].
  apply (consume_stores argv argv _ _ _ _ (incl_refl _) H). now left.
Qed.

End StoredStrings.

(** X12. The options [-x], [-y] and [-d] are declared without a type: when
    one of them is on a command line that parses, the width, height or DPI
    handed to [convert_to_png] is a word of the command line, as a string,
    not a number (only the defaults are numbers). *)
Theorem given_sizes_are_strings (argv : list string) (args : Namespace) :
  parse_args argv = Parsed args ->
  ((exists word, In word argv /\ In word ["-x"; "--xscale"]) ->
   exists v, In v argv /\ xscale args = AStr v) /\
  ((exists word, In word argv /\ In word ["-y"; "--yscale"]) ->
   exists v, In v argv /\ yscale args = AStr v) /\
  ((exists word, In word argv /\ In word ["-d"; "--dpi"]) ->
   exists v, In v argv /\ dpi args = AStr v).
Proof.
  intros H. split; [|split].
  - apply (parse_args_stores xscale d_xscale); try exact H; try discriminate;
      intros; try reflexivity; destruct d'; try reflexivity; congruence.
  - apply (parse_args_stores yscale d_yscale); try exact H; try discriminate;
      intros; try reflexivity; destruct d'; try reflexivity; congruence.
  - apply (parse_args_stores dpi d_dpi); try exact H; try discriminate;
      intros; try reflexivity; destruct d'; try reflexivity; congruence.
Qed.

Lemma given_sizes_are_strings_witness :
  exists args v,
    parse_args ["--dpi"; "300"; "-x"; "50"; "mesh.json"] = Parsed args /\
    In v ["--dpi"; "300"; "-x"; "50"; "mesh.json"] /\
    xscale args = AStr v.
Proof.
  eexists.
  destruct (given_sizes_are_strings
              ["--dpi"; "300"; "-x"; "50"; "mesh.json"] _ eq_refl)
    as [Hx _].
  destruct Hx as (v & Hv & Hxv).
  - exists "-x". split; [right; right; now left | now left].
  - exists v. split; [reflexivity|]. split; [exact Hv | exact Hxv].
Defined.

(** X13. End to end, on a command line made of paths only: when the
    library calls return, [main] returns normally, prints one line per
    path, and writes, for each path that is a file and in the order given,
    one PNG at its absolute path with [.png] appended, 40 by 30 inches at 180
    DPI, holding the [SIC] layer drawn with [coolwarm] under the [land]
    layer. *)
Theorem main_on_paths_only (raises : call -> bool)
    (isfile : string -> bool) (abspath : string -> string)
    (word : string) (words : list string) (w : world) :
  Forall plain (word :: words) ->
  library_returns raises ->
  let argv := word :: words in
  let r := main raises isfile abspath argv in
  outcome r w = inl tt /\
  stdout (after r w)
  = stdout w ++
    map (fun p => if isfile p then ("Including filename: " ++ p)%string
                  else ("Filename " ++ p ++
                        " is not a file (or doesn't exist): Ignoring")%string)
      argv /\
  exists written,
    saved (after r w) = saved w ++ written /\
    Forall2
      (fun p f =>
         f = {| png_path := abspath p ++ ".png";
                png_dpi := AInt 180;
                png_figure :=
                  {| figsize := Some (AInt 40, AInt 30);
                     layers :=
                       [ main_layer (abspath p) "SIC" (CmapName "coolwarm");
                         land_layer (abspath p) ] |} |})
      (filter isfile argv) written.
Proof.
  intros Hplain Hlib. cbv zeta. unfold outcome, after, main.
  rewrite (parse_args_files_only word words Hplain), run_spec.
  destruct amsr2_colormap_value_exists as [cm Hcm].
  rewrite (render_all_closed raises _ _ _ _ _ cm _ _ Hlib Hcm).
  cbn [fst snd].
  destruct (rendered_fold_paths (AInt 40) (AInt 30) (AInt 180)
              false "SIC" cm
              (map abspath (filter isfile (word :: words)))
              (printed (map (notice isfile) (word :: words)) w))
    as (H1 & H2 & _).
  split; [reflexivity|]. split; [rewrite H1; reflexivity|].
  eexists. split; [rewrite H2; reflexivity|].
  rewrite map_map. apply Forall2_map_right. intros p. reflexivity.
Qed.

Lemma main_on_paths_only_witness :
  map png_path
    (saved (after (main no_raise sample_isfile sample_abspath
                     ["mesh.json"; "missing.json"; "/data/b.json"])
              empty_world))
  = ["/cwd/mesh.json.png"; "/data/b.json.png"].
Proof.
  destruct (main_on_paths_only no_raise sample_isfile sample_abspath
              "mesh.json" ["missing.json"; "/data/b.json"] empty_world)
    as (_ & _ & written & Hs & HF).
  - repeat constructor.
  - exact no_raise_returns.
  - cbv zeta in Hs, HF. rewrite Hs. cbn in HF.
    inversion HF as [|p1 f1 ps1 fs1 P1 HF1]; subst.
    inversion HF1 as [|p2 f2 ps2 fs2 P2 HF2]; subst.
    inversion HF2; subst. reflexivity.
Defined.
